(** * Schema inspector: a shallow embedding of [scripts/schema_inspector.py]

    The script scans a directory for tabular files, loads each with pandas,
    infers a role for every column and prints a Markdown report with a ranked
    list of modeling candidates.

    What is embedded here and how:
    - Python [str] values are byte strings ([string]); [str.lower] folds the
      ASCII letters (every test the script makes on a lowered name or suffix
      looks for an ASCII literal).
    - Python exceptions are the [Raise] branch of [result].
    - Python floats are the rationals they denote, plus [NaN] ([pyfloat]);
      a ratio of two counts is compared as the exact fraction.
    - The pandas readers, the file system and Python's value formatting are
      not code of the script: they are the fields of [World].
    - The pandas dtype predicates are tabulated on [Dtype] as
      [pandas.api.types] defines them. *)

From Stdlib Require Import List String Ascii Bool Arith ZArith QArith Qcanon Lia Lqa.
From Stdlib Require Import Sorting.Sorted Sorting.Permutation OrderedTypeEx.
Import ListNotations.

#[local] Open Scope string_scope.
#[local] Open Scope list_scope.
#[local] Open Scope nat_scope.

(** ** Python strings *)

Module PyStr.

Definition lower_ascii (c : ascii) : ascii :=
  let n := nat_of_ascii c in
  if (65 <=? n) && (n <=? 90) then ascii_of_nat (n + 32) else c.

(** [s.lower()] *)
Fixpoint lower (s : string) : string :=
  match s with
  | EmptyString => EmptyString
  | String c s' => String (lower_ascii c) (lower s')
  end.

(** [sub in s] *)
Fixpoint contains (sub s : string) : bool :=
  String.prefix sub s ||
  match s with
  | EmptyString => false
  | String _ s' => contains sub s'
  end.

(** [s.endswith(suf)] *)
Fixpoint endswith (suf s : string) : bool :=
  String.eqb s suf ||
  match s with
  | EmptyString => false
  | String _ s' => endswith suf s'
  end.

(** [sep.join(ls)] *)
Definition join (sep : string) (ls : list string) : string :=
  String.concat sep ls.

(** [s.rfind(".")], [None] standing for -1 *)
Fixpoint rfind_dot (s : string) : option nat :=
  match s with
  | EmptyString => None
  | String c s' =>
      match rfind_dot s' with
      | Some i => Some (S i)
      | None => if Ascii.eqb c "."%char then Some 0 else None
      end
  end.

(** Truth value of an [Optional[str]]: [None] and the empty string are
    false. *)
Definition truthy (o : option string) : bool :=
  match o with
  | None => false
  | Some s => negb (String.eqb s "")
  end.

(** [name == target] for a [str] and an [Optional[str]] *)
Definition eq_opt (name : string) (target : option string) : bool :=
  match target with
  | None => false
  | Some t => String.eqb name t
  end.

(** [x in {...}] for a set literal of strings *)
Definition mem (x : string) (xs : list string) : bool :=
  existsb (String.eqb x) xs.

End PyStr.

(** ** Exceptions *)

Inductive exn : Type :=
| ValueError (msg : string)
| ZeroDivisionError
| ReadError (msg : string).   (* whatever a pandas reader raises *)

Inductive result (A : Type) : Type :=
| Ok (a : A)
| Raise (e : exn).

Arguments Ok {A} a.
Arguments Raise {A} e.

Definition bind {A B : Type} (m : result A) (k : A -> result B) : result B :=
  match m with
  | Ok a => k a
  | Raise e => Raise e
  end.

Notation "x <- m ;; k" := (bind m (fun x => k))
  (at level 61, m at next level, right associativity).

Definition raises {A : Type} (m : result A) : bool :=
  match m with
  | Ok _ => false
  | Raise _ => true
  end.

(** [str(exc)] *)
Definition str_exn (e : exn) : string :=
  match e with
  | ValueError msg => msg
  | ZeroDivisionError => "division by zero"
  | ReadError msg => msg
  end.

(** ** Floats *)

Inductive pyfloat : Type :=
| Fin (q : Q)
| NaN.

Module PyFloat.

Definition of_nat (n : nat) : Q := inject_Z (Z.of_nat n).

(** [a / b] on two ints *)
Definition truediv (a b : nat) : result Q :=
  match b with
  | O => Raise ZeroDivisionError
  | S _ => Ok (Z.of_nat a # Pos.of_nat b)
  end.

Definition mul (x : pyfloat) (k : Q) : pyfloat :=
  match x with
  | Fin q => Fin (q * k)
  | NaN => NaN
  end.

Definition neg (x : pyfloat) : pyfloat :=
  match x with
  | Fin q => Fin (- q)
  | NaN => NaN
  end.

Definition eqb (x y : pyfloat) : bool :=
  match x, y with
  | Fin a, Fin b => Qeq_bool a b
  | _, _ => false
  end.

Definition ltb (x y : pyfloat) : bool :=
  match x, y with
  | Fin a, Fin b => negb (Qle_bool b a)
  | _, _ => false
  end.

(** [x >= k] *)
Definition geb (x : pyfloat) (k : Q) : bool :=
  match x with
  | Fin a => Qle_bool k a
  | NaN => false
  end.

End PyFloat.

(** ** pandas: dtypes, cells, Series, DataFrame *)

Inductive Dtype : Type :=
| int64
| float64
| bool_
| datetime64
| timedelta64
| object_                        (* Python objects, text as the readers load it *)
| string_                        (* StringDtype *)
| category (categories : Dtype). (* CategoricalDtype over its categories *)

Inductive scalar : Type :=
| SInt (z : Z)
| SFloat (q : Qc)
| SBool (b : bool)
| SStr (s : string)
| STime (ns : Z).

Record Series : Type := mkSeries {
  dtype : Dtype;
  values : list (option scalar)   (* [None] is a missing cell *)
}.

Record DataFrame : Type := mkDataFrame {
  nrows : nat;                          (* [len(df)] *)
  columns : list (string * Series)      (* [df.columns] with [df[name]] *)
}.

Module pd.

(** [pd.api.types.is_datetime64_any_dtype] *)
Definition is_datetime64_any_dtype (s : Series) : bool :=
  match dtype s with
  | datetime64 => true
  | _ => false
  end.

(** [pd.api.types.is_numeric_dtype]: numpy's number kinds and bool. *)
Definition is_numeric_dtype (s : Series) : bool :=
  match dtype s with
  | int64 | float64 | bool_ => true
  | _ => false
  end.

(** [pd.api.types.is_bool_dtype]: bool, and a categorical whose categories
    are bool. *)
Definition is_bool_dtype (s : Series) : bool :=
  match dtype s with
  | bool_ => true
  | category bool_ => true
  | _ => false
  end.

(** [pd.api.types.is_string_dtype]: the string dtype, and an object
    column all of whose cells are strings. (A categorical is left to
    [is_categorical_dtype], with which the script tests it.) *)
Definition is_string_dtype (s : Series) : bool :=
  match dtype s with
  | string_ => true
  | object_ =>
      forallb
        (fun c => match c with Some (SStr _) => true | _ => false end)
        (values s)
  | _ => false
  end.

(** [pd.api.types.is_categorical_dtype] *)
Definition is_categorical_dtype (s : Series) : bool :=
  match dtype s with
  | category _ => true
  | _ => false
  end.

Definition scalar_eqb (a b : scalar) : bool :=
  match a, b with
  | SInt x, SInt y => Z.eqb x y
  | SFloat x, SFloat y => Qeq_bool (this x) (this y)
  | SBool x, SBool y => Bool.eqb x y
  | SStr x, SStr y => String.eqb x y
  | STime x, STime y => Z.eqb x y
  | _, _ => false
  end.

(** [len(series)] *)
Definition len (s : Series) : nat := List.length (values s).

(** [series.dropna()], as the list of its cells *)
Fixpoint dropna_cells (cells : list (option scalar)) : list scalar :=
  match cells with
  | [] => []
  | Some v :: rest => v :: dropna_cells rest
  | None :: rest => dropna_cells rest
  end.

Definition dropna (s : Series) : list scalar := dropna_cells (values s).

(** [.unique()]: the distinct cells in order of first appearance *)
Fixpoint unique_from (seen : list scalar) (cells : list scalar) : list scalar :=
  match cells with
  | [] => []
  | v :: rest =>
      if existsb (scalar_eqb v) seen then unique_from seen rest
      else v :: unique_from (v :: seen) rest
  end.

Definition unique (cells : list scalar) : list scalar := unique_from [] cells.

Definition has_missing (s : Series) : bool :=
  existsb (fun c => match c with None => true | Some _ => false end) (values s).

(** [series.nunique(dropna=...)]: with [dropna=False] the missing cells
    count as one more value. *)
Definition nunique (drop : bool) (s : Series) : nat :=
  let n := List.length (unique (dropna s)) in
  if drop then n else if has_missing s then S n else n.

(** [series.notna()] *)
Definition notna (s : Series) : list bool :=
  map (fun c => match c with None => false | Some _ => true end) (values s).

(** [.mean()] of a boolean Series: [NaN] when it is empty *)
Definition mean (bs : list bool) : pyfloat :=
  match bs with
  | [] => NaN
  | _ :: _ => Fin (Z.of_nat (count_occ bool_dec bs true) # Pos.of_nat (List.length bs))
  end.

End pd.

(** ** The script *)

Definition SUPPORTED_EXTENSIONS : list string :=
  [".csv"; ".parquet"; ".feather"; ".xlsx"; ".xls"].

Definition ROLE_TARGET := "target".
Definition ROLE_ID := "id".
Definition ROLE_DATETIME := "datetime".
Definition ROLE_NUMERIC := "numérica".
Definition ROLE_BINARY := "binária".
Definition ROLE_CATEGORICAL := "categórica".
Definition ROLE_UNKNOWN := "desconhecido".

Definition NOTE_ID := "possível identificador".
Definition NOTE_CONSTANT := "coluna constante".
Definition NOTE_BINARY := "binária".
Definition NOTE_PERCENT := "verificar escala percentual".
Definition NOTE_HIGH_CARD := "alta cardinalidade".

(** The name test of [infer_role]'s second rule, on the lowercased name. *)
Definition id_name (lowered : string) : bool :=
  PyStr.contains "id" lowered || PyStr.contains "uuid" lowered
  || PyStr.endswith "_cd" lowered.

(** [column.nunique(dropna=False) / max(len(column), 1)] *)
Definition unique_ratio (column : Series) : result Q :=
  PyFloat.truediv (pd.nunique false column) (Nat.max (pd.len column) 1).

Definition infer_role (column : Series) (name : string) (target : option string)
  : result (string * list string) :=
  let lowered := PyStr.lower name in
  let notes : list string := [] in
  if PyStr.truthy target && PyStr.eq_opt name target then
    Ok (ROLE_TARGET, notes)
  else if id_name lowered then
    Ok (ROLE_ID, notes ++ [NOTE_ID])
  else if pd.is_datetime64_any_dtype column then
    Ok (ROLE_DATETIME, notes)
  else if pd.is_numeric_dtype column then
    let unique_values := pd.nunique true column in
    let notes := if unique_values <=? 1 then notes ++ [NOTE_CONSTANT] else notes in
    let notes := if unique_values =? 2 then notes ++ [NOTE_BINARY] else notes in
    let notes :=
      if PyStr.contains "percent" lowered || PyStr.contains "rate" lowered
      then notes ++ [NOTE_PERCENT] else notes in
    Ok (ROLE_NUMERIC, notes)
  else if pd.is_bool_dtype column then
    Ok (ROLE_BINARY, notes)
  else if pd.is_string_dtype column || pd.is_categorical_dtype column then
    ratio <- unique_ratio column ;;
    let notes :=
      if negb (Qle_bool ratio (9 # 10)) then notes ++ [NOTE_HIGH_CARD] else notes in
    Ok (ROLE_CATEGORICAL, notes)
  else
    Ok (ROLE_UNKNOWN, notes).

(** ** pathlib *)

Record Path : Type := mkPath {
  parts : list string   (* the components of the path *)
}.

Module pathlib.

(** [path.name]: the final component *)
Definition name (p : Path) : string := last (parts p) "".

(** [path.suffix]: the last dot of the name and what follows it, unless
    the dot starts or ends the name. *)
Definition suffix (p : Path) : string :=
  let nm := name p in
  match PyStr.rfind_dot nm with
  | Some i =>
      if (0 <? i) && (i <? String.length nm - 1)
      then String.substring i (String.length nm - i) nm
      else ""
  | None => ""
  end.

(** [str(path)] *)
Definition str (p : Path) : string :=
  match parts p with
  | "/" :: rest => ("/" ++ PyStr.join "/" rest)%string
  | ps => PyStr.join "/" ps
  end.

(** [p < q]: the components compared as Python compares lists *)
Fixpoint parts_ltb (a b : list string) : bool :=
  match a, b with
  | [], [] => false
  | [], _ :: _ => true
  | _ :: _, [] => false
  | x :: a', y :: b' =>
      if String.eqb x y then parts_ltb a' b' else String.ltb x y
  end.

Definition ltb (p q : Path) : bool := parts_ltb (parts p) (parts q).

End pathlib.

(** ** Builtins: [sorted] and [dict] *)

Section Sorting.

Context {A : Type} (lt : A -> A -> bool).

Fixpoint insort (x : A) (l : list A) : list A :=
  match l with
  | [] => [x]
  | y :: l' => if lt y x then y :: insort x l' else x :: y :: l'
  end.

(** [sorted(l)]: the stable sort of [l] under [<]. Every stable sort
    returns the same list on a total order; this one inserts from the
    right. *)
Fixpoint sorted (l : list A) : list A :=
  match l with
  | [] => []
  | x :: l' => insort x (sorted l')
  end.

End Sorting.

Module PyDict.

Definition t (V : Type) : Type := list (string * V).

(** [d[k] = v]: a present key keeps its place and takes the new value, a
    new key goes last. *)
Fixpoint set {V : Type} (k : string) (v : V) (d : t V) : t V :=
  match d with
  | [] => [(k, v)]
  | (k', v') :: d' =>
      if String.eqb k' k then (k', v) :: d' else (k', v') :: set k v d'
  end.

Definition keys {V : Type} (d : t V) : list string := map fst d.

End PyDict.

(** ** The summaries *)

Definition nl : string := String (ascii_of_nat 10) "".

Module ColumnSummary.

Record t : Type := mk {
  name : string;
  dtype : string;
  role : string;
  non_null_pct : pyfloat;
  unique_values : nat;
  example_values : list string;
  notes : list string
}.

End ColumnSummary.

Module TableSummary.

Record t : Type := mk {
  file_path : Path;
  row_count : nat;
  column_summaries : list ColumnSummary.t
}.

End TableSummary.

(** What the script takes from its environment: the file system, the
    pandas readers, and Python's formatting of values. *)
Record World : Type := mkWorld {
  path_exists : Path -> bool;                              (* [path.exists()] *)
  is_file : Path -> bool;                                  (* [path.is_file()] *)
  glob_all : Path -> list Path;                            (* [dir.glob("**/*")] *)
  read_csv : Path -> option Z -> result DataFrame;
  read_parquet : Path -> result DataFrame;
  read_feather : Path -> result DataFrame;
  read_excel : Path -> option Z -> result DataFrame;
  str_dtype : Dtype -> string;                             (* [str(series.dtype)] *)
  str_cell : scalar -> string;                             (* [str(val)] *)
  str_int : nat -> string;                                 (* [f"{n}"] *)
  format_thousands : nat -> string;                        (* [f"{n:,}"] *)
  format_1f : pyfloat -> string;                           (* [f"{x:.1f}"] *)
  json_dumps : list (string * nat * list ColumnSummary.t) -> string
}.

Definition to_markdown_row (w : World) (self : ColumnSummary.t) : string :=
  let notes_text :=
    match ColumnSummary.notes self with
    | [] => ""
    | _ :: _ => PyStr.join "; " (ColumnSummary.notes self)
    end in
  let examples := PyStr.join ", " (ColumnSummary.example_values self) in
  ("| " ++ ColumnSummary.name self ++ " | " ++ ColumnSummary.dtype self
   ++ " | " ++ ColumnSummary.role self ++ " | "
   ++ format_1f w (ColumnSummary.non_null_pct self) ++ "% | "
   ++ str_int w (ColumnSummary.unique_values self) ++ " | " ++ examples
   ++ " | " ++ notes_text ++ " |")%string.

Definition to_markdown (w : World) (self : TableSummary.t) : string :=
  let header : string :=
    ("### " ++ pathlib.name (TableSummary.file_path self) ++ " ("
     ++ format_thousands w (TableSummary.row_count self) ++ " linhas)" ++ nl)%string in
  let table_header : string :=
    ("| Coluna | Tipo | Papel sugerido | Cobertura | Valores únicos | Exemplos | Observações |"
     ++ nl ++ "| --- | --- | --- | --- | --- | --- | --- |" ++ nl)%string in
  let rows :=
    PyStr.join nl (map (to_markdown_row w) (TableSummary.column_summaries self)) in
  (header ++ table_header ++ rows ++ nl)%string.

(** ** Loading and summarizing one file *)

Definition load_table (w : World) (path : Path) (sample_rows : option Z)
  : result DataFrame :=
  let suffix := PyStr.lower (pathlib.suffix path) in
  if String.eqb suffix ".csv" then read_csv w path sample_rows
  else if String.eqb suffix ".parquet" then read_parquet w path
  else if String.eqb suffix ".feather" then read_feather w path
  else if PyStr.mem suffix [".xlsx"; ".xls"] then read_excel w path sample_rows
  else Raise (ValueError ("Unsupported file type: " ++ suffix)%string).

(** The body of the loop of [summarize_table], for one column. *)
Definition summarize_column (w : World) (target : option string)
    (column : string * Series) : result ColumnSummary.t :=
  let '(column_name, series) := column in
  rn <- infer_role series column_name target ;;
  let '(role, notes) := rn in
  let non_null_pct :=
    if 0 <? pd.len series
    then PyFloat.mul (pd.mean (pd.notna series)) 100
    else Fin 0 in
  let unique_values :=
    if 0 <? pd.len series then pd.nunique false series else 0 in
  let example_values :=
    map (str_cell w) (firstn 3 (pd.unique (pd.dropna series))) in
  Ok (ColumnSummary.mk column_name (str_dtype w (dtype series)) role
        non_null_pct unique_values example_values notes).

Fixpoint summarize_columns (w : World) (target : option string)
    (cols : list (string * Series)) (summaries : list ColumnSummary.t)
  : result (list ColumnSummary.t) :=
  match cols with
  | [] => Ok summaries
  | column :: rest =>
      s <- summarize_column w target column ;;
      summarize_columns w target rest (summaries ++ [s])
  end.

Definition summarize_table (w : World) (path : Path) (target : option string)
    (sample_rows : option Z) : result TableSummary.t :=
  df <- load_table w path sample_rows ;;
  let row_count := nrows df in
  summaries <- summarize_columns w target (columns df) [] ;;
  Ok (TableSummary.mk path row_count summaries).

(** ** Scanning the data directory *)

Definition scan_data_dir (w : World) (data_dir : Path) : list Path :=
  filter
    (fun file_path =>
       is_file w file_path
       && PyStr.mem (PyStr.lower (pathlib.suffix file_path)) SUPPORTED_EXTENSIONS)
    (sorted pathlib.ltb (glob_all w data_dir)).

(** ** The command line program *)

Record Args : Type := mkArgs {
  data_dir : Path;
  target : option string;
  sample_rows : option Z;
  output : option Path;
  json_output : option Path
}.

(** What a run leaves behind: the lines printed and the files written. *)
Record Effects : Type := mkEffects {
  stdout : list string;
  stderr : list string;
  written : list (Path * string)
}.

Inductive Exit : Type :=
| Return (code : Z)        (* [main] returns [code] *)
| SystemExit (code : Z).   (* [parser.error] leaves the program *)

(** The value kept per candidate key. *)
Record CandidateInfo : Type := mkInfo {
  info_non_null_pct : pyfloat;
  info_unique_values : nat;
  info_role : string
}.

(** The loop over [table_paths], with its [try]/[except]: the state is
    [table_summaries] and the lines sent to stderr. *)
Definition load_step (w : World) (args : Args)
    (st : list TableSummary.t * list string) (path : Path)
  : list TableSummary.t * list string :=
  let '(table_summaries, err) := st in
  match summarize_table w path (target args) (sample_rows args) with
  | Ok table_summary => (table_summaries ++ [table_summary], err)
  | Raise exc =>
      (table_summaries,
       err ++ [("Falha ao ler " ++ pathlib.str path ++ ": " ++ str_exn exc)%string])
  end.

Definition load_all (w : World) (args : Args) (table_paths : list Path)
  : list TableSummary.t * list string :=
  fold_left (load_step w args) table_paths ([], []).

(** [col.role in {...} and col.non_null_pct >= 60] *)
Definition is_candidate (col : ColumnSummary.t) : bool :=
  PyStr.mem (ColumnSummary.role col) [ROLE_NUMERIC; ROLE_CATEGORICAL; ROLE_BINARY]
  && PyFloat.geb (ColumnSummary.non_null_pct col) 60.

Definition candidate_key (table_summary : TableSummary.t) (col : ColumnSummary.t)
  : string :=
  (pathlib.name (TableSummary.file_path table_summary) ++ "::"
   ++ ColumnSummary.name col)%string.

Definition candidate_info (col : ColumnSummary.t) : CandidateInfo :=
  mkInfo (ColumnSummary.non_null_pct col) (ColumnSummary.unique_values col)
    (ColumnSummary.role col).

(** The inner loop over the columns of one table. *)
Definition collect_column (table_summary : TableSummary.t)
    (modeling_candidates : PyDict.t CandidateInfo) (col : ColumnSummary.t)
  : PyDict.t CandidateInfo :=
  if is_candidate col
  then PyDict.set (candidate_key table_summary col) (candidate_info col)
         modeling_candidates
  else modeling_candidates.

(** The outer loop over [table_summaries]: the state is [markdown_parts] and
    [modeling_candidates]. *)
Definition collect_step (w : World)
    (st : list string * PyDict.t CandidateInfo) (table_summary : TableSummary.t)
  : list string * PyDict.t CandidateInfo :=
  let '(markdown_parts, modeling_candidates) := st in
  (markdown_parts ++ [to_markdown w table_summary],
   fold_left (collect_column table_summary)
     (TableSummary.column_summaries table_summary) modeling_candidates).

Definition collect (w : World) (table_summaries : list TableSummary.t)
  : list string * PyDict.t CandidateInfo :=
  fold_left (collect_step w) table_summaries
    ([("## Resumo de Schemas" ++ nl)%string], []).

(** [(-item[1]["non_null_pct"], item[0])] *)
Definition sort_key (item : string * CandidateInfo) : pyfloat * string :=
  (PyFloat.neg (info_non_null_pct (snd item)), fst item).

(** [<] on those pairs, as Python compares tuples: the first components
    that differ decide. *)
Definition key_ltb (a b : pyfloat * string) : bool :=
  if PyFloat.eqb (fst a) (fst b) then String.ltb (snd a) (snd b)
  else PyFloat.ltb (fst a) (fst b).

Definition item_ltb (x y : string * CandidateInfo) : bool :=
  key_ltb (sort_key x) (sort_key y).

(** The ranked candidates, as the report lists them. *)
Definition ranked (modeling_candidates : PyDict.t CandidateInfo)
  : list (string * CandidateInfo) :=
  sorted item_ltb modeling_candidates.

Definition candidate_row (w : World) (item : string * CandidateInfo) : string :=
  let '(name, info) := item in
  ("| " ++ name ++ " | " ++ info_role info ++ " | "
   ++ format_1f w (info_non_null_pct info) ++ "% | "
   ++ str_int w (info_unique_values info) ++ " |" ++ nl)%string.

(** [main] from the test of [table_summaries] on: what it does with the
    summaries it has and with the lines already sent to stderr. *)
Definition report (w : World) (args : Args)
    (table_summaries : list TableSummary.t) (err : list string)
  : Exit * Effects :=
  match table_summaries with
  | [] =>
      (Return 1,
       mkEffects []
         (err ++ ["Não foi possível gerar resumo para nenhum arquivo."]) [])
  | _ :: _ =>
      let '(markdown_parts, modeling_candidates) := collect w table_summaries in
      let markdown_parts :=
        match modeling_candidates with
        | [] => markdown_parts
        | _ :: _ =>
            markdown_parts
            ++ [("### Variáveis candidatas para modelagem" ++ nl)%string]
            ++ [("| Variável | Papel | Cobertura | Valores únicos |" ++ nl
                 ++ "| --- | --- | --- | --- |" ++ nl)%string]
            ++ map (candidate_row w) (ranked modeling_candidates)
        end in
      let markdown_output := PyStr.join nl markdown_parts in
      let out_md :=
        match output args with
        | Some p => [(p, markdown_output)]
        | None => []
        end in
      let out_json :=
        match json_output args with
        | Some p =>
            [(p,
              json_dumps w
                (map
                   (fun summary =>
                      (pathlib.str (TableSummary.file_path summary),
                       TableSummary.row_count summary,
                       TableSummary.column_summaries summary))
                   table_summaries))]
        | None => []
        end in
      (Return 0, mkEffects [markdown_output] err (out_md ++ out_json))
  end.

Definition main (w : World) (args : Args) : Exit * Effects :=
  if negb (path_exists w (data_dir args)) then
    (SystemExit 2,
     mkEffects []
       [("Data directory '" ++ pathlib.str (data_dir args)
         ++ "' does not exist.")%string] [])
  else
    let table_paths := scan_data_dir w (data_dir args) in
    match table_paths with
    | [] =>
        (Return 1,
         mkEffects [] ["Nenhum arquivo tabular suportado foi encontrado."] [])
    | _ :: _ =>
        let '(table_summaries, err) := load_all w args table_paths in
        report w args table_summaries err
    end.

(** ** The ratio of rule 6, read from the specification

    "distinct ratio = distinct-count-including-missing / total-row-count
    (0 if no rows)". The script computes [unique_ratio] instead; the two
    are compared in [unique_ratio_refines]. *)
Definition distinct_ratio_spec (column : Series) : Q :=
  match pd.len column with
  | O => 0
  | S _ => Z.of_nat (pd.nunique false column) # Pos.of_nat (pd.len column)
  end.

(** The test that opens [infer_role]: [target and name == target]. *)
Definition is_target (name : string) (target : option string) : bool :=
  PyStr.truthy target && PyStr.eq_opt name target.

(** ** Vocabulary of the statements: tables and readers *)

(** A table whose columns all have as many cells as the table has rows. *)
Definition consistent (df : DataFrame) : Prop :=
  Forall (fun column => pd.len (snd column) = nrows df) (columns df).

(** The reader the specification gives each supported extension ([ext] is
    one of [SUPPORTED_EXTENSIONS]). *)
Definition reader_of (w : World) (ext : string) (path : Path)
    (sample_rows : option Z) : result DataFrame :=
  if String.eqb ext ".csv" then read_csv w path sample_rows
  else if String.eqb ext ".parquet" then read_parquet w path
  else if String.eqb ext ".feather" then read_feather w path
  else read_excel w path sample_rows.

(** ** A small world to run the script in *)

Module Demo.

Definition p (ps : list string) : Path := mkPath ps.

Definition path_eqb (a b : Path) : bool :=
  if list_eq_dec string_dec (parts a) (parts b) then true else false.

Definition plans : Series :=
  mkSeries object_
    [Some (SStr "free"); Some (SStr "pro"); Some (SStr "free"); Some (SStr "team")].

Definition sparse : Series :=
  mkSeries float64 [None; None; None; Some (SFloat (Q2Qc 3))].

Definition clicks : Series :=
  mkSeries int64 [Some (SInt 3); Some (SInt 5); Some (SInt 3); Some (SInt 9)].

Definition half : Series :=
  mkSeries float64 [Some (SFloat (Q2Qc 1)); None; Some (SFloat (Q2Qc 0)); None].

Definition plans_b : Series :=
  mkSeries string_ [Some (SStr "free"); Some (SStr "pro"); None; Some (SStr "free")].

Definition df_a : DataFrame :=
  mkDataFrame 4 [("user_id", clicks); ("plan", plans); ("score", sparse)].

Definition df_b : DataFrame :=
  mkDataFrame 4 [("score", clicks); ("flag", half); ("plan", plans_b)].

Definition df_empty : DataFrame :=
  mkDataFrame 0 [("plan", mkSeries object_ []); ("clicks", mkSeries int64 [])].

Definition files : list Path :=
  [p ["data"; "b"]; p ["data"; "b"; "x.csv"]; p ["data"; "a"];
   p ["data"; "a"; "x.csv"]; p ["data"; "notes.txt"];
   p ["data"; "broken.parquet"]; p ["data"; "EMPTY.CSV"]].

Definition world : World :=
  mkWorld
    (fun d => path_eqb d (p ["data"]))
    (fun f => negb (path_eqb f (p ["data"; "a"]) || path_eqb f (p ["data"; "b"])))
    (fun d => if path_eqb d (p ["data"]) then files else [])
    (fun f _ =>
       if path_eqb f (p ["data"; "a"; "x.csv"]) then Ok df_a
       else if path_eqb f (p ["data"; "b"; "x.csv"]) then Ok df_b
       else if path_eqb f (p ["data"; "EMPTY.CSV"]) then Ok df_empty
       else Raise (ReadError "No such file"))
    (fun _ => Raise (ReadError "Invalid parquet file"))
    (fun _ => Raise (ReadError "Invalid feather file"))
    (fun _ _ => Raise (ReadError "Invalid workbook"))
    (fun _ => "dtype") (fun _ => "cell") (fun _ => "n") (fun _ => "n")
    (fun _ => "x.x") (fun _ => "[]").

Definition args : Args := mkArgs (p ["data"]) (Some "churned") None None None.

End Demo.

(** ** Vocabulary of the statements: the loop of [main] *)

(** The line [main] sends to stderr for a file that fails. *)
Definition warning (path : Path) (exc : exn) : string :=
  ("Falha ao ler " ++ pathlib.str path ++ ": " ++ str_exn exc)%string.

(** What one path should contribute to [table_summaries], and to stderr. *)
Definition summary_of (w : World) (args : Args) (path : Path)
  : list TableSummary.t :=
  match summarize_table w path (target args) (sample_rows args) with
  | Ok table_summary => [table_summary]
  | Raise _ => []
  end.

Definition warning_of (w : World) (args : Args) (path : Path) : list string :=
  match summarize_table w path (target args) (sample_rows args) with
  | Ok _ => []
  | Raise exc => [warning path exc]
  end.

Definition fails (w : World) (args : Args) (path : Path) : bool :=
  raises (summarize_table w path (target args) (sample_rows args)).

(** ** Vocabulary of the statements: the candidates *)

(** Every column of every table, paired with its table, in the order the
    loops of [main] visit them. *)
Definition candidate_pairs (table_summaries : list TableSummary.t)
  : list (TableSummary.t * ColumnSummary.t) :=
  flat_map
    (fun table_summary =>
       map (pair table_summary) (TableSummary.column_summaries table_summary))
    table_summaries.

Definition pair_key (pr : TableSummary.t * ColumnSummary.t) : string :=
  candidate_key (fst pr) (snd pr).

(** The two loops of [main] as one pass over [candidate_pairs]. *)
Definition collect_pairs (pairs : list (TableSummary.t * ColumnSummary.t))
    (d : PyDict.t CandidateInfo) : PyDict.t CandidateInfo :=
  fold_left (fun d pr => collect_column (fst pr) d (snd pr)) pairs d.

(** The dict of candidates [main] builds from [table_summaries], and the
    list its report prints. *)
Definition modeling_candidates (table_summaries : list TableSummary.t)
  : PyDict.t CandidateInfo :=
  collect_pairs (candidate_pairs table_summaries) [].

Definition candidate_list (table_summaries : list TableSummary.t)
  : list (string * CandidateInfo) :=
  ranked (modeling_candidates table_summaries).



(** ** What the run on the demo world summarizes *)

Module DemoRun.

Definition col (name role : string) (pct : Q) (uniq : nat)
    (examples notes : list string) : ColumnSummary.t :=
  ColumnSummary.mk name "dtype" role (Fin pct) uniq examples notes.

Definition ts_empty : TableSummary.t :=
  TableSummary.mk (Demo.p ["data"; "EMPTY.CSV"]) 0
    [col "plan" ROLE_CATEGORICAL 0 0 [] [];
     col "clicks" ROLE_NUMERIC 0 0 [] [NOTE_CONSTANT]].

Definition plan_a : ColumnSummary.t :=
  col "plan" ROLE_CATEGORICAL (400 # 4) 3 ["cell"; "cell"; "cell"] [].

Definition score_a : ColumnSummary.t :=
  col "score" ROLE_NUMERIC (100 # 4) 2 ["cell"] [NOTE_CONSTANT].

Definition ts_a : TableSummary.t :=
  TableSummary.mk (Demo.p ["data"; "a"; "x.csv"]) 4
    [col "user_id" ROLE_ID (400 # 4) 3 ["cell"; "cell"; "cell"] [NOTE_ID];
     plan_a; score_a].

Definition ts_b : TableSummary.t :=
  TableSummary.mk (Demo.p ["data"; "b"; "x.csv"]) 4
    [col "score" ROLE_NUMERIC (400 # 4) 3 ["cell"; "cell"; "cell"] [];
     col "flag" ROLE_NUMERIC (200 # 4) 3 ["cell"; "cell"] [NOTE_BINARY];
     col "plan" ROLE_CATEGORICAL (300 # 4) 3 ["cell"; "cell"] []].

End DemoRun.

(** * The script on small inputs *)

Example infer_role_ex1 :
  infer_role (mkSeries int64 [Some (SInt 0); Some (SInt 1); Some (SInt 1)])
    "churned" None = Ok (ROLE_NUMERIC, [NOTE_BINARY]).
Proof. reflexivity. Qed.

Example infer_role_ex2 :
  infer_role (mkSeries string_ [Some (SStr "a"); Some (SStr "b"); None])
    "Plan" None = Ok (ROLE_CATEGORICAL, [NOTE_HIGH_CARD]).
Proof. reflexivity. Qed.

Example infer_role_ex3 :
  infer_role (mkSeries int64 [Some (SInt 0); Some (SInt 1)])
    "User_ID" (Some "churned") = Ok (ROLE_ID, [NOTE_ID]).
Proof. reflexivity. Qed.

Example demo_scan :
  scan_data_dir Demo.world (Demo.p ["data"])
  = [Demo.p ["data"; "EMPTY.CSV"]; Demo.p ["data"; "a"; "x.csv"];
     Demo.p ["data"; "b"; "x.csv"]; Demo.p ["data"; "broken.parquet"]].
Proof. reflexivity. Qed.

Example demo_load :
  load_all Demo.world Demo.args (scan_data_dir Demo.world (Demo.p ["data"]))
  = ([DemoRun.ts_empty; DemoRun.ts_a; DemoRun.ts_b],
     ["Falha ao ler data/broken.parquet: Invalid parquet file"]).
Proof. reflexivity. Qed.

Example demo_exit : fst (main Demo.world Demo.args) = Return 0.
Proof. reflexivity. Qed.

Example demo_candidates :
  candidate_list [DemoRun.ts_empty; DemoRun.ts_a; DemoRun.ts_b]
  = [("x.csv::score", mkInfo (Fin (400 # 4)) 3 ROLE_NUMERIC);
     ("x.csv::plan", mkInfo (Fin (300 # 4)) 3 ROLE_CATEGORICAL)].
Proof. reflexivity. Qed.

(** * Properties of [infer_role] *)

Lemma nunique_empty (drop : bool) (column : Series) :
  pd.len column = 0 -> pd.nunique drop column = 0.
Proof.
  destruct column as [d vs]; unfold pd.len; simpl.
  destruct vs; [intros _ | discriminate].
  destruct drop; reflexivity.
Qed.

Lemma unique_ratio_refines (column : Series) :
  unique_ratio column = Ok (distinct_ratio_spec column).
Proof.
  unfold unique_ratio, distinct_ratio_spec.
  destruct (pd.len column) as [|n] eqn:E.
  - rewrite (nunique_empty false column E). reflexivity.
  - replace (Nat.max (S n) 1) with (S n) by lia. reflexivity.
Qed.


Lemma numeric_not_datetime (column : Series) :
  pd.is_numeric_dtype column = true -> pd.is_datetime64_any_dtype column = false.
Proof.
  unfold pd.is_numeric_dtype, pd.is_datetime64_any_dtype.
  destruct (dtype column); simpl; intros H; try discriminate; auto.
Qed.

(** [infer_role] returns: the one division it makes has a divisor of at
    least 1. *)
Lemma infer_role_total (column : Series) (name : string) (target : option string) :
  exists role notes, infer_role column name target = Ok (role, notes).
Proof.
  unfold infer_role.
  rewrite unique_ratio_refines; cbn [bind].
  repeat match goal with
         | |- context [if ?b then _ else _] => destruct b
         end; eauto.
Qed.

(** The roles [infer_role] can return. *)
Lemma infer_role_roles (column : Series) (name : string) (target : option string)
    (role : string) (notes : list string) :
  infer_role column name target = Ok (role, notes) ->
  In role [ROLE_TARGET; ROLE_ID; ROLE_DATETIME; ROLE_NUMERIC; ROLE_BINARY;
           ROLE_CATEGORICAL; ROLE_UNKNOWN].
Proof.
  unfold infer_role.
  rewrite unique_ratio_refines; cbn [bind].
  repeat match goal with
         | |- context [if ?b then _ else _] => destruct b
         end;
    intros H; injection H as <- _; simpl; tauto.
Qed.

(** Claim C1. When a designated target is set (a non-empty string) and is
    the column's name, [infer_role] returns the role target with no notes,
    whatever the name looks like and whatever the column holds: the target
    test comes before every other rule. *)
Theorem infer_role_target_first
    (column : Series) (name : string) (target : option string) :
  PyStr.truthy target = true ->
  target = Some name ->
  infer_role column name target = Ok (ROLE_TARGET, []).
Proof.
  intros Hset ->.
  unfold infer_role.
  rewrite Hset. cbn [PyStr.eq_opt andb].
  rewrite String.eqb_refl. reflexivity.
Qed.

Lemma infer_role_target_first_witness :
  infer_role (mkSeries int64 [Some (SInt 7); Some (SInt 8)]) "user_id"
    (Some "user_id") = Ok (ROLE_TARGET, []).
Proof.
  apply (infer_role_target_first
           (mkSeries int64 [Some (SInt 7); Some (SInt 8)]) "user_id"
           (Some "user_id")); reflexivity.
Defined.

(** Claim C9. The empty string as designated target is the same as no
    target: [infer_role] answers as it does without one, and a column whose
    name is the empty string does not get the role target. *)
Theorem empty_target_is_unset (column : Series) (name : string) :
  infer_role column name (Some "") = infer_role column name None
  /\ is_target "" (Some "") = false
  /\ forall role notes,
       infer_role column "" (Some "") = Ok (role, notes) -> role <> ROLE_TARGET.
Proof.
  split; [reflexivity | split; [reflexivity |]].
  intros role notes H.
  change (infer_role column "" (Some "")) with (infer_role column "" None) in H.
  unfold infer_role in H.
  rewrite unique_ratio_refines in H; cbn [bind] in H.
  cbn [PyStr.truthy andb PyStr.lower] in H.
  change (id_name "") with false in H.
  repeat match type of H with
         | context [if ?b then _ else _] => destruct b
         end;
    injection H as <- _; discriminate.
Qed.







(** Claim C5: what the script does with a boolean column. pandas counts
    bool among the numeric dtypes, so the numeric rule, which is tested
    first, takes every bool column: a column holding True and False gets
    the role numeric with the binary note, and no bool column ever gets the
    role binary that the rule for booleans returns. *)
Theorem bool_column_takes_numeric_rule :
  infer_role (mkSeries bool_ [Some (SBool true); Some (SBool false)]) "flag" None
  = Ok (ROLE_NUMERIC, [NOTE_BINARY])
  /\ forall cells name target role notes,
       infer_role (mkSeries bool_ cells) name target = Ok (role, notes) ->
       role <> ROLE_BINARY.
Proof.
  split; [reflexivity |].
  intros cells name target role notes.
  unfold infer_role.
  change (pd.is_datetime64_any_dtype (mkSeries bool_ cells)) with false.
  change (pd.is_numeric_dtype (mkSeries bool_ cells)) with true.
  cbv iota.
  destruct (PyStr.truthy target && PyStr.eq_opt name target);
    [intros H; injection H as <- _; discriminate |].
  destruct (id_name (PyStr.lower name));
    intros H; injection H as <- _; discriminate.
Qed.

(** * Properties of the summarizer and the loader *)

Lemma mean_notna_not_nan (series : Series) :
  pd.len series <> 0 -> exists q, pd.mean (pd.notna series) = Fin q.
Proof.
  destruct series as [d vs]; unfold pd.len, pd.notna; simpl.
  destruct vs; [intros H; exfalso; apply H; reflexivity | intros _; simpl; eauto].
Qed.

Lemma summarize_column_total (w : World) (target : option string)
    (column : string * Series) :
  exists s, summarize_column w target column = Ok s
            /\ ColumnSummary.name s = fst column
            /\ ColumnSummary.non_null_pct s <> NaN
            /\ (pd.len (snd column) = 0 ->
                ColumnSummary.non_null_pct s = Fin 0
                /\ ColumnSummary.unique_values s = 0).
Proof.
  destruct column as [name series]; unfold summarize_column.
  destruct (infer_role_total series name target) as (role & notes & ->).
  cbn [bind]. eexists; split; [reflexivity |]. cbn.
  destruct (pd.len series) as [|n] eqn:E; cbn.
  - repeat split; congruence.
  - destruct (mean_notna_not_nan series) as [q ->]; [congruence |].
    repeat split; cbn; congruence.
Qed.

Lemma summarize_columns_total (w : World) (target : option string)
    (cols : list (string * Series)) (acc : list ColumnSummary.t) :
  exists ss, summarize_columns w target cols acc = Ok (acc ++ ss)
             /\ map ColumnSummary.name ss = map fst cols
             /\ Forall (fun s => ColumnSummary.non_null_pct s <> NaN) ss
             /\ (Forall (fun column => pd.len (snd column) = 0) cols ->
                 Forall (fun s => ColumnSummary.non_null_pct s = Fin 0
                                  /\ ColumnSummary.unique_values s = 0) ss).
Proof.
  revert acc; induction cols as [|c cols IH]; intros acc; cbn [summarize_columns].
  - exists []. rewrite app_nil_r. repeat split; auto.
  - destruct (summarize_column_total w target c) as (s & -> & Hn & Hnan & H0).
    cbn [bind].
    destruct (IH (acc ++ [s])) as (ss & -> & Hnames & Hnans & Hall).
    exists (s :: ss). rewrite <- app_assoc. cbn [app map].
    repeat split; [congruence | constructor; assumption |].
    intros HF; inversion HF; subst. constructor; auto.
Qed.

(** [summarize_table] fails when, and as, [load_table] fails. *)
Lemma summarize_table_load (w : World) (path : Path) (target : option string)
    (sample_rows : option Z) :
  match load_table w path sample_rows with
  | Raise e => summarize_table w path target sample_rows = Raise e
  | Ok df =>
      exists ss,
        summarize_table w path target sample_rows
        = Ok (TableSummary.mk path (nrows df) ss)
        /\ map ColumnSummary.name ss = map fst (columns df)
        /\ Forall (fun s => ColumnSummary.non_null_pct s <> NaN) ss
        /\ (Forall (fun column => pd.len (snd column) = 0) (columns df) ->
            Forall (fun s => ColumnSummary.non_null_pct s = Fin 0
                             /\ ColumnSummary.unique_values s = 0) ss)
  end.
Proof.
  unfold summarize_table.
  destruct (load_table w path sample_rows) as [df | e]; cbn [bind]; [| reflexivity].
  destruct (summarize_columns_total w target (columns df) [])
    as (ss & -> & Hn & Hnan & H0).
  cbn [bind app]. exists ss. auto.
Qed.

(** Claim C6. When the loaded table has no rows, the summary of each of its
    columns has coverage 0.0 and distinct-value count 0, and the ratio of
    the text rule is 0. No division by zero happens, on this table or on
    any other: [infer_role] always returns, its ratio is always defined,
    and so is the coverage of every column. *)
Theorem empty_table_divides_nothing
    (w : World) (path : Path) (target : option string)
    (sample_rows : option Z) (df : DataFrame) :
  load_table w path sample_rows = Ok df ->
  consistent df ->
  nrows df = 0 ->
  (exists ss,
     summarize_table w path target sample_rows = Ok (TableSummary.mk path 0 ss)
     /\ map ColumnSummary.name ss = map fst (columns df)
     /\ Forall (fun s => ColumnSummary.non_null_pct s = Fin 0
                         /\ ColumnSummary.unique_values s = 0) ss)
  /\ Forall (fun column => unique_ratio (snd column) = Ok 0%Q) (columns df)
  /\ (forall series, exists q, unique_ratio series = Ok q)
  /\ (forall series name tgt, exists role notes,
        infer_role series name tgt = Ok (role, notes))
  /\ (forall column, exists s,
        summarize_column w target column = Ok s
        /\ ColumnSummary.non_null_pct s <> NaN).
Proof.
  intros Hload Hcons Hrows.
  assert (Hempty : Forall (fun column => pd.len (snd column) = 0) (columns df)).
  { unfold consistent in Hcons. rewrite Hrows in Hcons. exact Hcons. }
  split; [| split; [| split; [| split]]].
  - pose proof (summarize_table_load w path target sample_rows) as H.
    rewrite Hload in H. destruct H as (ss & E & Hn & _ & H0).
    rewrite Hrows in E. exists ss. repeat split; auto.
  - apply Forall_impl with (2 := Hempty). intros [n s] Hlen; cbn in *.
    rewrite unique_ratio_refines. unfold distinct_ratio_spec. rewrite Hlen.
    reflexivity.
  - intros series. rewrite unique_ratio_refines. eauto.
  - intros. apply infer_role_total.
  - intros column.
    destruct (summarize_column_total w target column) as (s & E & _ & Hnan & _).
    eauto.
Qed.

Lemma empty_table_divides_nothing_witness :
  exists ss,
    summarize_table Demo.world (Demo.p ["data"; "EMPTY.CSV"]) None None
    = Ok (TableSummary.mk (Demo.p ["data"; "EMPTY.CSV"]) 0 ss)
    /\ map ColumnSummary.name ss = ["plan"; "clicks"]
    /\ Forall (fun s => ColumnSummary.non_null_pct s = Fin 0
                        /\ ColumnSummary.unique_values s = 0) ss.
Proof.
  refine (proj1 (empty_table_divides_nothing Demo.world
                   (Demo.p ["data"; "EMPTY.CSV"]) None None Demo.df_empty _ _ _));
    [reflexivity | repeat constructor | reflexivity].
Defined.

(** ** The scan and the dispatch on the suffix *)

(** [sorted] returns a permutation of its argument. *)
Lemma insort_perm {A : Type} (lt : A -> A -> bool) (x : A) (l : list A) :
  Permutation (insort lt x l) (x :: l).
Proof.
  induction l as [|y l IH]; cbn [insort]; [reflexivity |].
  destruct (lt y x); [| reflexivity].
  rewrite IH. apply perm_swap.
Qed.

Lemma sorted_perm {A : Type} (lt : A -> A -> bool) (l : list A) :
  Permutation (sorted lt l) l.
Proof.
  induction l as [|x l IH]; cbn [sorted]; [reflexivity |].
  rewrite insort_perm. constructor. exact IH.
Qed.

Lemma sorted_In {A : Type} (lt : A -> A -> bool) (l : list A) (x : A) :
  In x (sorted lt l) <-> In x l.
Proof.
  split; apply Permutation_in; [| symmetry]; apply sorted_perm.
Qed.

Lemma supported_cases (ext : string) :
  In ext SUPPORTED_EXTENSIONS <->
  ext = ".csv" \/ ext = ".parquet" \/ ext = ".feather" \/ ext = ".xlsx" \/ ext = ".xls".
Proof.
  unfold SUPPORTED_EXTENSIONS; simpl. intuition congruence.
Qed.

Lemma mem_In (x : string) (xs : list string) :
  PyStr.mem x xs = true <-> In x xs.
Proof.
  unfold PyStr.mem. rewrite existsb_exists. split.
  - intros (y & Hy & E). apply String.eqb_eq in E. now subst.
  - intros H. exists x. split; [exact H | apply String.eqb_refl].
Qed.

(** [load_table] on a path whose lowercased suffix is [ext]. *)
Lemma load_table_by_ext (w : World) (path : Path) (sample_rows : option Z) :
  let ext := PyStr.lower (pathlib.suffix path) in
  (In ext SUPPORTED_EXTENSIONS ->
   load_table w path sample_rows = reader_of w ext path sample_rows)
  /\ (~ In ext SUPPORTED_EXTENSIONS ->
      load_table w path sample_rows
      = Raise (ValueError ("Unsupported file type: " ++ ext)%string)).
Proof.
  unfold load_table, reader_of; cbv zeta.
  generalize (PyStr.lower (pathlib.suffix path)) as ext; intros ext.
  rewrite supported_cases.
  destruct (String.eqb_spec ext ".csv") as [-> | H1]; [split; [reflexivity | tauto] |].
  destruct (String.eqb_spec ext ".parquet") as [-> | H2]; [split; [reflexivity | tauto] |].
  destruct (String.eqb_spec ext ".feather") as [-> | H3]; [split; [reflexivity | tauto] |].
  cbn [PyStr.mem existsb].
  destruct (String.eqb_spec ext ".xlsx") as [-> | H4]; [split; [reflexivity | tauto] |].
  destruct (String.eqb_spec ext ".xls") as [-> | H5]; [split; [reflexivity | tauto] |].
  cbn [orb]. split; [intuition congruence | reflexivity].
Qed.


Lemma lower_supported (ext : string) :
  In ext SUPPORTED_EXTENSIONS -> PyStr.lower ext = ext.
Proof.
  rewrite supported_cases. intros [-> | [-> | [-> | [-> | ->]]]]; reflexivity.
Qed.

(** Claim C10. A file whose suffix is a supported extension up to letter
    case is kept by the directory scan, and [load_table] reads it with the
    reader of that extension, the one a file with the lowercase suffix
    gets. *)
Theorem extension_case_insensitive (w : World) (path : Path) (ext : string) :
  In ext SUPPORTED_EXTENSIONS ->
  PyStr.lower (pathlib.suffix path) = ext ->
  (forall data_dir,
     In path (glob_all w data_dir) -> is_file w path = true ->
     In path (scan_data_dir w data_dir))
  /\ (forall sample_rows,
        load_table w path sample_rows = reader_of w ext path sample_rows)
  /\ (forall other sample_rows,
        pathlib.suffix other = ext ->
        load_table w other sample_rows = reader_of w ext other sample_rows).
Proof.
  intros Hext Hlow. split; [| split].
  - intros data_dir Hglob Hfile. unfold scan_data_dir.
    apply filter_In. split; [apply sorted_In, Hglob |].
    rewrite Hfile, Hlow. cbn [andb]. apply mem_In, Hext.
  - intros sample_rows.
    destruct (load_table_by_ext w path sample_rows) as [H _]; cbv zeta in H.
    rewrite Hlow in H. exact (H Hext).
  - intros other sample_rows Hother.
    destruct (load_table_by_ext w other sample_rows) as [H _]; cbv zeta in H.
    rewrite Hother, (lower_supported ext Hext) in H. exact (H Hext).
Qed.

Lemma extension_case_insensitive_witness :
  In (Demo.p ["data"; "EMPTY.CSV"]) (scan_data_dir Demo.world (Demo.p ["data"]))
  /\ load_table Demo.world (Demo.p ["data"; "EMPTY.CSV"]) None = Ok Demo.df_empty.
Proof.
  destruct (extension_case_insensitive Demo.world (Demo.p ["data"; "EMPTY.CSV"])
              ".csv") as (Hscan & Hload & _).
  - simpl; tauto.
  - reflexivity.
  - split.
    + apply Hscan; [simpl; tauto | reflexivity].
    + rewrite Hload. reflexivity.
Defined.

(** * Properties of [main] *)

Lemma load_loop_spec (w : World) (args : Args) (paths : list Path)
    (acc : list TableSummary.t) (err : list string) :
  fold_left (load_step w args) paths (acc, err)
  = (acc ++ flat_map (summary_of w args) paths,
     err ++ flat_map (warning_of w args) paths).
Proof.
  revert acc err; induction paths as [|path paths IH]; intros acc err.
  - cbn. now rewrite !app_nil_r.
  - cbn [fold_left flat_map]. unfold load_step at 2, summary_of at 1, warning_of at 1.
    destruct (summarize_table w path (target args) (sample_rows args)) as [ts | e];
      rewrite IH; cbn [app]; now rewrite <- ?app_assoc.
Qed.


Lemma summarize_table_file_path (w : World) (path : Path)
    (target : option string) (sample_rows : option Z) (ts : TableSummary.t) :
  summarize_table w path target sample_rows = Ok ts ->
  TableSummary.file_path ts = path.
Proof.
  intros H. pose proof (summarize_table_load w path target sample_rows) as L.
  destruct (load_table w path sample_rows).
  - destruct L as (ss & E & _). rewrite E in H. injection H as <-. reflexivity.
  - rewrite L in H. discriminate H.
Qed.



(** Without its data directory [main] stops in [parser.error], which
    leaves the program with status 2. *)
Lemma main_missing_data_dir (w : World) (args : Args) :
  path_exists w (data_dir args) = false ->
  fst (main w args) = SystemExit 2 /\ stdout (snd (main w args)) = [].
Proof.
  intros H. unfold main. rewrite H. split; reflexivity.
Qed.



(** * Properties of the modeling candidates *)

(** ** The dict *)

Lemma dict_set_In {V : Type} (k : string) (v : V) (d : PyDict.t V)
    (k' : string) (v' : V) :
  In (k', v') (PyDict.set k v d) -> (k', v') = (k, v) \/ In (k', v') d.
Proof.
  induction d as [|[k0 v0] d IH]; cbn [PyDict.set].
  - intros [H | []]. left. now symmetry.
  - destruct (String.eqb_spec k0 k) as [-> | Hne]; intros [H | H].
    + left. now symmetry.
    + right. now right.
    + right. now left.
    + destruct (IH H) as [E | I]; [now left | right; now right].
Qed.

Lemma dict_set_keys {V : Type} (k : string) (v : V) (d : PyDict.t V) (k' : string) :
  In k' (PyDict.keys (PyDict.set k v d)) <-> k' = k \/ In k' (PyDict.keys d).
Proof.
  unfold PyDict.keys.
  induction d as [|[k0 v0] d IH]; cbn [PyDict.set map fst In].
  - intuition congruence.
  - destruct (String.eqb_spec k0 k) as [-> | Hne]; cbn [map fst In].
    + intuition congruence.
    + rewrite IH. intuition congruence.
Qed.

Lemma dict_set_NoDup {V : Type} (k : string) (v : V) (d : PyDict.t V) :
  NoDup (PyDict.keys d) -> NoDup (PyDict.keys (PyDict.set k v d)).
Proof.
  induction d as [|[k0 v0] d IH]; cbn [PyDict.set].
  - intros _. repeat constructor. intros [].
  - intros H. inversion H as [|? ? Hnot Hd]; subst.
    destruct (String.eqb_spec k0 k) as [-> | Hne].
    + constructor; assumption.
    + unfold PyDict.keys; cbn [map fst]. constructor; [| apply IH, Hd].
      intros Hin. apply dict_set_keys in Hin. destruct Hin as [E | I]; auto.
Qed.


(** ** The loops *)

Lemma collect_snd (w : World) (tss : list TableSummary.t)
    (parts : list string) (d : PyDict.t CandidateInfo) :
  snd (fold_left (collect_step w) tss (parts, d))
  = collect_pairs (candidate_pairs tss) d.
Proof.
  revert parts d; induction tss as [|ts tss IH]; intros parts d; [reflexivity |].
  cbn [fold_left candidate_pairs flat_map]. unfold collect_step at 2.
  rewrite IH. unfold collect_pairs. rewrite fold_left_app. f_equal.
  generalize (TableSummary.column_summaries ts) as cols. intros cols.
  revert d; induction cols as [|c cols IHc]; intros d; [reflexivity |].
  cbn [map fold_left fst snd]. apply IHc.
Qed.

Lemma collect_modeling_candidates (w : World) (tss : list TableSummary.t) :
  snd (collect w tss) = modeling_candidates tss.
Proof. apply collect_snd. Qed.

Lemma candidate_pairs_In (tss : list TableSummary.t) (ts : TableSummary.t)
    (col : ColumnSummary.t) :
  In (ts, col) (candidate_pairs tss)
  <-> In ts tss /\ In col (TableSummary.column_summaries ts).
Proof.
  unfold candidate_pairs. rewrite in_flat_map. split.
  - intros (ts' & Hts & H). apply in_map_iff in H.
    destruct H as (c & E & Hc). injection E as -> ->. auto.
  - intros [Hts Hc]. exists ts. split; [exact Hts | now apply in_map].
Qed.

Lemma collect_pairs_In pairs (d : PyDict.t CandidateInfo) k v :
  In (k, v) (collect_pairs pairs d) ->
  In (k, v) d
  \/ exists pr, In pr pairs /\ is_candidate (snd pr) = true
                /\ k = pair_key pr /\ v = candidate_info (snd pr).
Proof.
  unfold collect_pairs.
  revert d; induction pairs as [|pr pairs IH]; intros d; cbn [fold_left]; [auto |].
  intros H. apply IH in H. destruct H as [H | (pr' & Hin & Hc & Hk & Hv)].
  - unfold collect_column in H. destruct (is_candidate (snd pr)) eqn:Hc; [| auto].
    apply dict_set_In in H. destruct H as [E | H]; [| auto].
    injection E as -> ->. right. exists pr. repeat split; auto. now left.
  - right. exists pr'. repeat split; auto. now right.
Qed.

Lemma collect_pairs_keys pairs (d : PyDict.t CandidateInfo) k :
  In k (PyDict.keys (collect_pairs pairs d))
  <-> In k (PyDict.keys d)
      \/ exists pr, In pr pairs /\ is_candidate (snd pr) = true /\ k = pair_key pr.
Proof.
  unfold collect_pairs.
  revert d; induction pairs as [|pr pairs IH]; intros d; cbn [fold_left].
  - split; [auto | intros [H | (pr & [] & _)]; exact H].
  - rewrite IH. unfold collect_column.
    destruct (is_candidate (snd pr)) eqn:Hc.
    + rewrite dict_set_keys. split.
      * intros [[-> | H] | (pr' & Hin & Hc' & Hk)]; auto.
        -- right. exists pr. repeat split; auto. now left.
        -- right. exists pr'. repeat split; auto. now right.
      * intros [H | (pr' & [<- | Hin] & Hc' & Hk)]; auto.
        right. exists pr'. auto.
    + split.
      * intros [H | (pr' & Hin & Hc' & Hk)]; auto.
        right. exists pr'. repeat split; auto. now right.
      * intros [H | (pr' & [<- | Hin] & Hc' & Hk)]; auto; [congruence |].
        right. exists pr'. auto.
Qed.

Lemma collect_pairs_NoDup pairs (d : PyDict.t CandidateInfo) :
  NoDup (PyDict.keys d) -> NoDup (PyDict.keys (collect_pairs pairs d)).
Proof.
  unfold collect_pairs.
  revert d; induction pairs as [|pr pairs IH]; intros d H; cbn [fold_left]; [exact H |].
  apply IH. unfold collect_column.
  destruct (is_candidate (snd pr)); [now apply dict_set_NoDup | exact H].
Qed.


(** ** [sorted] sorts *)

Section SortedOn.

Context {A : Type} (lt : A -> A -> bool) (R : A -> A -> Prop) (P : A -> Prop).

Hypothesis lt_R : forall x y, P x -> P y -> lt x y = true -> R x y.
Hypothesis nlt_R : forall x y, P x -> P y -> lt y x = false -> R x y.
Hypothesis R_trans : forall x y z, P x -> P y -> P z -> R x y -> R y z -> R x z.

Lemma insort_sorted (x : A) (l : list A) :
  P x -> Forall P l -> StronglySorted R l -> StronglySorted R (insort lt x l).
Proof.
  intros Px Pl Hs. induction l as [|y l IH]; cbn [insort].
  - repeat constructor.
  - inversion Pl as [|? ? Py Pl']; subst.
    inversion Hs as [|? ? Hs' Hy]; subst.
    destruct (lt y x) eqn:E.
    + constructor; [apply IH; assumption |].
      apply Forall_forall. intros z Hz.
      apply (Permutation_in _ (insort_perm lt x l)) in Hz.
      destruct Hz as [<- | Hz]; [now apply lt_R |].
      rewrite Forall_forall in Hy. now apply Hy.
    + constructor; [exact Hs |].
      assert (Rxy : R x y) by now apply nlt_R.
      constructor; [exact Rxy |].
      apply Forall_forall. intros z Hz.
      rewrite Forall_forall in Hy, Pl'.
      apply R_trans with y; auto.
Qed.

Lemma sorted_sorted (l : list A) :
  Forall P l -> StronglySorted R (sorted lt l).
Proof.
  induction l as [|x l IH]; cbn [sorted]; intros Pl; [constructor |].
  inversion Pl as [|? ? Px Pl']; subst.
  apply insort_sorted; [exact Px | | now apply IH].
  apply Forall_forall. intros z Hz. apply sorted_In in Hz.
  rewrite Forall_forall in Pl'. now apply Pl'.
Qed.

End SortedOn.

(** ** The order on strings *)





(** ** The order of the report *)




Lemma is_candidate_spec (col : ColumnSummary.t) :
  is_candidate col = true
  <-> In (ColumnSummary.role col) [ROLE_NUMERIC; ROLE_CATEGORICAL; ROLE_BINARY]
      /\ exists q, ColumnSummary.non_null_pct col = Fin q /\ (60 <= q)%Q.
Proof.
  unfold is_candidate. rewrite andb_true_iff, mem_In.
  unfold PyFloat.geb. destruct (ColumnSummary.non_null_pct col) as [q |].
  - rewrite Qle_bool_iff. split.
    + intros [H1 H2]. split; [exact H1 | eauto].
    + intros [H1 (q' & E & H2)]. injection E as <-. auto.
  - split; [intros [_ H]; discriminate | intros [_ (q & E & _)]; discriminate].
Qed.




Lemma candidate_list_keys_NoDup (tss : list TableSummary.t) :
  NoDup (PyDict.keys (candidate_list tss)).
Proof.
  unfold candidate_list, ranked, PyDict.keys.
  apply (Permutation_NoDup (l := map fst (modeling_candidates tss))).
  - apply Permutation_map. symmetry. apply sorted_perm.
  - apply collect_pairs_NoDup. constructor.
Qed.




(** * Further properties of [infer_role] *)

Lemma infer_role_not_target (column : Series) (name : string)
    (target : option string) :
  is_target name target = false ->
  infer_role column name target = infer_role column name None.
Proof.
  intros H. unfold infer_role. fold (is_target name target). rewrite H.
  reflexivity.
Qed.

(** Property X1. [infer_role] gives the role target exactly when the
    designated target is set and is the column's name, compared as it is
    written (case matters); no other rule returns that role. *)
Theorem infer_role_target_iff
    (column : Series) (name : string) (target : option string) :
  (exists notes, infer_role column name target = Ok (ROLE_TARGET, notes))
  <-> PyStr.truthy target = true /\ target = Some name.
Proof.
  split.
  - intros [notes H]. unfold infer_role in H.
    destruct (PyStr.truthy target) eqn:Ht; cbn [andb] in H.
    + unfold PyStr.eq_opt in H. destruct target as [t |]; [| discriminate Ht].
      destruct (String.eqb_spec name t) as [-> | Hne]; [auto |].
      rewrite unique_ratio_refines in H; cbn [bind] in H.
      repeat match type of H with
             | context [if ?b then _ else _] => destruct b
             end; discriminate H.
    + rewrite unique_ratio_refines in H; cbn [bind] in H.
      repeat match type of H with
             | context [if ?b then _ else _] => destruct b
             end; discriminate H.
  - intros [Ht ->]. exists []. unfold infer_role. rewrite Ht.
    cbn [PyStr.eq_opt andb]. now rewrite String.eqb_refl.
Qed.

(** Property X2. A column that is not the target gets the role id exactly
    when its lowercased name contains "id" or ends in "_cd", whatever its
    dtype and cells; the notes are then the identifier note alone. *)
Theorem infer_role_id_iff
    (column : Series) (name : string) (target : option string) :
  ((exists notes, infer_role column name target = Ok (ROLE_ID, notes))
   <-> is_target name target = false /\ id_name (PyStr.lower name) = true)
  /\ (forall notes,
        infer_role column name target = Ok (ROLE_ID, notes) -> notes = [NOTE_ID]).
Proof.
  unfold infer_role. fold (is_target name target).
  rewrite unique_ratio_refines; cbn [bind].
  destruct (is_target name target).
  - split; [split |].
    + intros [notes H]. discriminate H.
    + intros [H _]. discriminate H.
    + intros notes H. discriminate H.
  - destruct (id_name (PyStr.lower name)).
    + split; [split; eauto |]. intros notes H. now injection H as <-.
    + split; [split |].
      * intros [notes H].
        repeat match type of H with
               | context [if ?b then _ else _] => destruct b
               end; discriminate H.
      * intros [_ H]. discriminate H.
      * intros notes H.
        repeat match type of H with
               | context [if ?b then _ else _] => destruct b
               end; discriminate H.
Qed.

Lemma contains_cons (sub : string) (c : ascii) (s : string) :
  PyStr.contains sub s = true -> PyStr.contains sub (String c s) = true.
Proof.
  intros H. cbn [PyStr.contains]. rewrite H. apply orb_true_r.
Qed.

Lemma prefix_uuid_contains_id (s : string) :
  String.prefix "uuid" s = true -> PyStr.contains "id" s = true.
Proof.
  intros H. apply String.prefix_correct in H.
  destruct s as [|c1 [|c2 [|c3 [|c4 r]]]]; try discriminate H.
  cbn in H. injection H as -> -> -> -> _.
  do 2 apply contains_cons.
  cbn [PyStr.contains]. apply orb_true_iff. left. destruct r; reflexivity.
Qed.

(** Property X3. The "uuid" test of the identifier rule never decides: a
    name containing "uuid" contains "id", so the rule is the test for "id"
    or a final "_cd". *)
Theorem id_name_without_uuid (lowered : string) :
  id_name lowered
  = PyStr.contains "id" lowered || PyStr.endswith "_cd" lowered.
Proof.
  unfold id_name.
  destruct (PyStr.contains "id" lowered) eqn:Hid; [reflexivity |].
  cbn [orb].
  assert (Hu : PyStr.contains "uuid" lowered = false); [| now rewrite Hu].
  destruct (PyStr.contains "uuid" lowered) eqn:Hu; [| reflexivity].
  exfalso. revert Hid Hu. induction lowered as [|c s IH]; [discriminate |].
  cbn [PyStr.contains]. intros Hid Hu.
  apply orb_false_iff in Hid. destruct Hid as [Hp Hid].
  apply orb_true_iff in Hu. destruct Hu as [Hu | Hu].
  - apply prefix_uuid_contains_id in Hu. cbn [PyStr.contains] in Hu.
    rewrite Hp, Hid in Hu. discriminate Hu.
  - now apply IH.
Qed.

(** Property X4. On a numeric column that is neither the target nor
    identifier-like, the notes say how many distinct non-missing values
    there are: the constant note exactly for at most one, the binary note
    exactly for two (never both), and the percentage note exactly when the
    lowercased name contains "percent" or "rate". *)
Theorem numeric_notes
    (column : Series) (name : string) (target : option string) :
  pd.is_numeric_dtype column = true ->
  is_target name target = false ->
  id_name (PyStr.lower name) = false ->
  exists notes,
    infer_role column name target = Ok (ROLE_NUMERIC, notes)
    /\ (In NOTE_CONSTANT notes <-> pd.nunique true column <= 1)
    /\ (In NOTE_BINARY notes <-> pd.nunique true column = 2)
    /\ (In NOTE_PERCENT notes
        <-> PyStr.contains "percent" (PyStr.lower name)
            || PyStr.contains "rate" (PyStr.lower name) = true)
    /\ List.length notes <= 2.
Proof.
  intros Hnum Htgt Hid.
  unfold infer_role. fold (is_target name target).
  rewrite Htgt, Hid, (numeric_not_datetime column Hnum), Hnum.
  eexists. split; [reflexivity |].
  destruct (pd.nunique true column) as [|[|[|n]]];
    destruct (PyStr.contains "percent" (PyStr.lower name)
              || PyStr.contains "rate" (PyStr.lower name));
    cbn; repeat split;
    try lia; try discriminate; try tauto;
    try (intros [H | H]; try discriminate H; try contradiction;
         destruct H as [H | H]; try discriminate H; contradiction);
    auto.
Qed.

Lemma numeric_notes_witness :
  exists notes,
    infer_role (mkSeries float64 [None; None]) "Conversion_Rate" None
    = Ok (ROLE_NUMERIC, notes)
    /\ (In NOTE_CONSTANT notes
        <-> pd.nunique true (mkSeries float64 [None; None]) <= 1)
    /\ (In NOTE_BINARY notes
        <-> pd.nunique true (mkSeries float64 [None; None]) = 2)
    /\ (In NOTE_PERCENT notes
        <-> PyStr.contains "percent" (PyStr.lower "Conversion_Rate")
            || PyStr.contains "rate" (PyStr.lower "Conversion_Rate") = true)
    /\ List.length notes <= 2.
Proof.
  apply (numeric_notes (mkSeries float64 [None; None]) "Conversion_Rate" None);
    reflexivity.
Defined.



(** Property X6. Whatever the column, [infer_role] returns one of the
    seven roles with at most two notes, each one of the five notes; only
    the numeric role carries more than one. *)
Theorem infer_role_range
    (column : Series) (name : string) (target : option string) :
  exists role notes,
    infer_role column name target = Ok (role, notes)
    /\ In role [ROLE_TARGET; ROLE_ID; ROLE_DATETIME; ROLE_NUMERIC; ROLE_BINARY;
                ROLE_CATEGORICAL; ROLE_UNKNOWN]
    /\ incl notes [NOTE_ID; NOTE_CONSTANT; NOTE_BINARY; NOTE_PERCENT;
                   NOTE_HIGH_CARD]
    /\ List.length notes <= 2
    /\ (role <> ROLE_NUMERIC -> List.length notes <= 1).
Proof.
  unfold infer_role.
  rewrite unique_ratio_refines; cbn [bind].
  destruct (pd.nunique true column) as [|[|[|n]]]; cbn [Nat.leb Nat.eqb];
  repeat match goal with
         | |- context [if ?b then _ else _] => destruct b
         end;
    do 2 eexists; (split; [reflexivity |]);
    (split; [simpl; tauto |]);
    (split; [intros x Hx; simpl in Hx; simpl; intuition |]);
    (split; [simpl; lia |]);
    intros Hr; simpl; try lia; exfalso; now apply Hr.
Qed.

(** * Further properties of the summarizer *)



Lemma dropna_length (cells : list (option scalar)) :
  List.length (pd.dropna_cells cells) <= List.length cells.
Proof.
  induction cells as [|[v |] cells IH]; cbn; lia.
Qed.

Lemma has_missing_dropna (series : Series) :
  (pd.has_missing series = false
   <-> List.length (pd.dropna series) = pd.len series)
  /\ (pd.has_missing series = true -> List.length (pd.dropna series) < pd.len series).
Proof.
  destruct series as [d cells]. unfold pd.has_missing, pd.dropna, pd.len.
  cbn [values].
  induction cells as [|[v |] cells [IH1 IH2]]; cbn.
  - repeat split; auto; discriminate.
  - split; [rewrite IH1; lia | intros H; apply IH2 in H; lia].
  - pose proof (dropna_length cells).
    split; [split; [discriminate | lia] | lia].
Qed.

Lemma unique_from_length (seen cells : list scalar) :
  List.length (pd.unique_from seen cells) <= List.length cells.
Proof.
  revert seen; induction cells as [|v cells IH]; intros seen; cbn; [lia |].
  destruct (existsb (pd.scalar_eqb v) seen); cbn.
  - specialize (IH seen). lia.
  - specialize (IH (v :: seen)). lia.
Qed.

Lemma unique_from_In (seen cells : list scalar) (v : scalar) :
  In v (pd.unique_from seen cells) -> In v cells.
Proof.
  revert seen; induction cells as [|x cells IH]; intros seen; cbn; [auto |].
  destruct (existsb (pd.scalar_eqb x) seen); cbn.
  - intros H. right. now apply (IH seen).
  - intros [H | H]; [now left | right; now apply (IH (x :: seen))].
Qed.

Lemma dropna_In (cells : list (option scalar)) (v : scalar) :
  In v (pd.dropna_cells cells) <-> In (Some v) cells.
Proof.
  induction cells as [|[x |] cells IH]; cbn.
  - tauto.
  - rewrite IH. split; intros [H | H]; auto; left; congruence.
  - rewrite IH. split; [auto | intros [H | H]; [discriminate | auto]].
Qed.

Lemma unique_nil (cells : list scalar) : pd.unique cells = [] <-> cells = [].
Proof.
  destruct cells; cbn; split; auto; discriminate.
Qed.

Lemma In_firstn_list {A : Type} (n : nat) (l : list A) (x : A) :
  In x (firstn n l) -> In x l.
Proof.
  revert l; induction n as [|n IH]; intros [|a l]; cbn; try tauto.
  intros [H | H]; [now left | right; now apply IH].
Qed.

(** What [summarize_column] returns, field by field. *)
Lemma summarize_column_fields (w : World) (target : option string)
    (name : string) (series : Series) (s : ColumnSummary.t) :
  summarize_column w target (name, series) = Ok s ->
  ColumnSummary.name s = name
  /\ ColumnSummary.dtype s = str_dtype w (dtype series)
  /\ infer_role series name target
     = Ok (ColumnSummary.role s, ColumnSummary.notes s)
  /\ ColumnSummary.non_null_pct s
     = (if 0 <? pd.len series
        then PyFloat.mul (pd.mean (pd.notna series)) 100 else Fin 0)
  /\ ColumnSummary.unique_values s
     = (if 0 <? pd.len series then pd.nunique false series else 0)
  /\ ColumnSummary.example_values s
     = map (str_cell w) (firstn 3 (pd.unique (pd.dropna series))).
Proof.
  unfold summarize_column.
  destruct (infer_role_total series name target) as (role & notes & E).
  rewrite E. cbn [bind]. intros H. injection H as <-. cbn.
  repeat split; auto.
Qed.



(** Property X8. The distinct count of a summarized column counts the
    missing cells as one value: it is the number of distinct non-missing
    values, plus one when a cell is missing; it never exceeds the number of
    rows, and it is 0 only for a column without rows. *)
Theorem distinct_count_range (w : World) (target : option string)
    (name : string) (series : Series) (s : ColumnSummary.t) :
  summarize_column w target (name, series) = Ok s ->
  ColumnSummary.unique_values s
  = pd.nunique true series + (if pd.has_missing series then 1 else 0)
  /\ ColumnSummary.unique_values s <= pd.len series
  /\ (ColumnSummary.unique_values s = 0 <-> pd.len series = 0).
Proof.
  intros H. apply summarize_column_fields in H.
  destruct H as (_ & _ & _ & _ & -> & _).
  destruct (has_missing_dropna series) as [Hm1 Hm2].
  pose proof (unique_from_length [] (pd.dropna series)) as Hu.
  pose proof (dropna_length (values series)) as Hle.
  fold (pd.dropna series) in Hle. fold (pd.len series) in Hle.
  fold (pd.unique (pd.dropna series)) in Hu.
  unfold pd.nunique.
  destruct (pd.len series) as [|n] eqn:En; cbn [Nat.ltb Nat.leb].
  - assert (Hd : pd.dropna series = [])
      by (destruct (pd.dropna series); [reflexivity | cbn in Hle; lia]).
    rewrite Hd. cbn.
    destruct (pd.has_missing series) eqn:Em; [specialize (Hm2 eq_refl); lia |].
    repeat split; lia.
  - destruct (pd.has_missing series) eqn:Em.
    + specialize (Hm2 eq_refl). repeat split; lia.
    + destruct Hm1 as [Hm1 _]. specialize (Hm1 eq_refl). clear Em.
      rename Hm1 into Em.
      assert (Hne : pd.unique (pd.dropna series) <> []).
      { rewrite unique_nil. intros E. rewrite E in Em. discriminate Em. }
      destruct (pd.unique (pd.dropna series)); [congruence |].
      cbn in *. repeat split; lia.
Qed.

Lemma distinct_count_range_witness :
  ColumnSummary.unique_values DemoRun.score_a
  = pd.nunique true Demo.sparse + (if pd.has_missing Demo.sparse then 1 else 0)
  /\ ColumnSummary.unique_values DemoRun.score_a <= pd.len Demo.sparse
  /\ (ColumnSummary.unique_values DemoRun.score_a = 0 <-> pd.len Demo.sparse = 0).
Proof.
  apply (distinct_count_range Demo.world None "score" Demo.sparse DemoRun.score_a).
  reflexivity.
Defined.

(** Property X9. The example values of a summarized column are the text of
    its first distinct non-missing cells: as many as there are distinct
    non-missing values, up to three, each one a cell of the column. *)
Theorem example_values_range (w : World) (target : option string)
    (name : string) (series : Series) (s : ColumnSummary.t) :
  summarize_column w target (name, series) = Ok s ->
  List.length (ColumnSummary.example_values s)
  = Nat.min 3 (pd.nunique true series)
  /\ Forall
       (fun e => exists v, In (Some v) (values series) /\ e = str_cell w v)
       (ColumnSummary.example_values s)
  /\ (ColumnSummary.example_values s = [] <-> pd.dropna series = []).
Proof.
  intros H. apply summarize_column_fields in H.
  destruct H as (_ & _ & _ & _ & _ & ->).
  split; [| split].
  - rewrite length_map, length_firstn. reflexivity.
  - apply Forall_forall. intros e He. apply in_map_iff in He.
    destruct He as (v & <- & Hv). exists v. split; [| reflexivity].
    apply dropna_In. apply (unique_from_In [] _ v).
    revert Hv. apply In_firstn_list.
  - rewrite <- unique_nil.
    destruct (pd.unique (pd.dropna series)); cbn; split; auto; discriminate.
Qed.

Lemma example_values_range_witness :
  List.length (ColumnSummary.example_values DemoRun.plan_a)
  = Nat.min 3 (pd.nunique true Demo.plans)
  /\ Forall
       (fun e => exists v, In (Some v) (values Demo.plans)
                           /\ e = str_cell Demo.world v)
       (ColumnSummary.example_values DemoRun.plan_a)
  /\ (ColumnSummary.example_values DemoRun.plan_a = []
      <-> pd.dropna Demo.plans = []).
Proof.
  apply (example_values_range Demo.world None "plan" Demo.plans DemoRun.plan_a).
  reflexivity.
Defined.

Lemma summarize_columns_each (w : World) (target : option string)
    (cols : list (string * Series)) (acc : list ColumnSummary.t) :
  exists ss,
    summarize_columns w target cols acc = Ok (acc ++ ss)
    /\ Forall2 (fun col s => summarize_column w target col = Ok s) cols ss.
Proof.
  revert acc; induction cols as [|col cols IH]; intros acc; cbn [summarize_columns].
  - exists []. rewrite app_nil_r. split; [reflexivity | constructor].
  - destruct (summarize_column_total w target col) as (s & E & _).
    rewrite E. cbn [bind].
    destruct (IH (acc ++ [s])) as (ss & -> & HF).
    exists (s :: ss). rewrite <- app_assoc. split; [reflexivity |].
    constructor; assumption.
Qed.

Lemma summarize_table_each (w : World) (path : Path) (target : option string)
    (sample_rows : option Z) (df : DataFrame) :
  load_table w path sample_rows = Ok df ->
  exists ss,
    summarize_table w path target sample_rows
    = Ok (TableSummary.mk path (nrows df) ss)
    /\ Forall2 (fun col s => summarize_column w target col = Ok s) (columns df) ss.
Proof.
  intros H. unfold summarize_table. rewrite H. cbn [bind].
  destruct (summarize_columns_each w target (columns df) []) as (ss & -> & HF).
  cbn [bind app]. eauto.
Qed.

(** Property X10. A table that loads is summarized column by column, in
    the table's column order: the summary carries the path it was given and
    the table's row count, and its i-th column summary is that of the i-th
    column, under the column's name. *)
Theorem summarize_table_in_column_order (w : World) (path : Path)
    (target : option string) (sample_rows : option Z) (ts : TableSummary.t) :
  summarize_table w path target sample_rows = Ok ts ->
  exists df,
    load_table w path sample_rows = Ok df
    /\ TableSummary.file_path ts = path
    /\ TableSummary.row_count ts = nrows df
    /\ map ColumnSummary.name (TableSummary.column_summaries ts)
       = map fst (columns df)
    /\ Forall2
         (fun col s =>
            infer_role (snd col) (fst col) target
            = Ok (ColumnSummary.role s, ColumnSummary.notes s))
         (columns df) (TableSummary.column_summaries ts).
Proof.
  intros H.
  destruct (load_table w path sample_rows) as [df | e] eqn:El.
  - destruct (summarize_table_each w path target sample_rows df El)
      as (ss & E & HF).
    rewrite E in H. injection H as <-. exists df. cbn.
    repeat split; auto.
    + clear E. induction HF as [|[n c] s cols ss Hs HF IH]; [reflexivity |].
      cbn. apply summarize_column_fields in Hs. destruct Hs as (-> & _).
      now rewrite IH.
    + clear E. induction HF as [|[n c] s cols ss Hs HF IH]; constructor; auto.
      apply summarize_column_fields in Hs. cbn. tauto.
  - unfold summarize_table in H. rewrite El in H. discriminate H.
Qed.

Lemma summarize_table_in_column_order_witness :
  exists df,
    load_table Demo.world (Demo.p ["data"; "a"; "x.csv"]) None = Ok df
    /\ TableSummary.file_path DemoRun.ts_a = Demo.p ["data"; "a"; "x.csv"]
    /\ TableSummary.row_count DemoRun.ts_a = nrows df
    /\ map ColumnSummary.name (TableSummary.column_summaries DemoRun.ts_a)
       = map fst (columns df)
    /\ Forall2
         (fun col s =>
            infer_role (snd col) (fst col) (Some "churned")
            = Ok (ColumnSummary.role s, ColumnSummary.notes s))
         (columns df) (TableSummary.column_summaries DemoRun.ts_a).
Proof.
  apply (summarize_table_in_column_order Demo.world
           (Demo.p ["data"; "a"; "x.csv"]) (Some "churned") None DemoRun.ts_a).
  reflexivity.
Defined.

(** Property X11. Designating a target changes the role and the notes of
    the column of that name and nothing else: every other column is
    summarized as without a target, and the target column keeps its name,
    dtype, coverage, distinct count and examples. *)
Theorem target_changes_one_column (w : World) (path : Path)
    (target : option string) (sample_rows : option Z) (df : DataFrame) :
  load_table w path sample_rows = Ok df ->
  exists ss ss0,
    summarize_table w path target sample_rows
    = Ok (TableSummary.mk path (nrows df) ss)
    /\ summarize_table w path None sample_rows
       = Ok (TableSummary.mk path (nrows df) ss0)
    /\ Forall2
         (fun s s0 =>
            if is_target (ColumnSummary.name s0) target
            then s = ColumnSummary.mk (ColumnSummary.name s0)
                       (ColumnSummary.dtype s0) ROLE_TARGET
                       (ColumnSummary.non_null_pct s0)
                       (ColumnSummary.unique_values s0)
                       (ColumnSummary.example_values s0) []
            else s = s0)
         ss ss0.
Proof.
  intros H.
  destruct (summarize_table_each w path target sample_rows df H) as (ss & E & HF).
  destruct (summarize_table_each w path None sample_rows df H) as (ss0 & E0 & HF0).
  exists ss, ss0. split; [exact E | split; [exact E0 |]].
  clear E E0 H. revert ss0 HF0.
  induction HF as [|[n c] s cols ss Hs HF IH]; intros ss0 HF0;
    inversion HF0 as [|? s0 ? ss0' Hs0 HF0']; subst; constructor; auto.
  pose proof (summarize_column_fields _ _ _ _ _ Hs0) as (Hn & _).
  rewrite Hn.
  destruct (is_target n target) eqn:Ht.
  - unfold summarize_column in Hs, Hs0.
    unfold infer_role at 1 in Hs. fold (is_target n target) in Hs.
    rewrite Ht in Hs. cbn [bind] in Hs.
    destruct (infer_role_total c n None) as (role & notes & Er).
    rewrite Er in Hs0. cbn [bind] in Hs0.
    injection Hs as <-. injection Hs0 as <-. reflexivity.
  - unfold summarize_column in Hs, Hs0.
    rewrite (infer_role_not_target c n target Ht) in Hs.
    rewrite Hs in Hs0. now injection Hs0.
Qed.

Lemma target_changes_one_column_witness :
  exists ss ss0,
    summarize_table Demo.world (Demo.p ["data"; "a"; "x.csv"]) (Some "plan") None
    = Ok (TableSummary.mk (Demo.p ["data"; "a"; "x.csv"]) (nrows Demo.df_a) ss)
    /\ summarize_table Demo.world (Demo.p ["data"; "a"; "x.csv"]) None None
       = Ok (TableSummary.mk (Demo.p ["data"; "a"; "x.csv"]) (nrows Demo.df_a) ss0)
    /\ Forall2
         (fun s s0 =>
            if is_target (ColumnSummary.name s0) (Some "plan")
            then s = ColumnSummary.mk (ColumnSummary.name s0)
                       (ColumnSummary.dtype s0) ROLE_TARGET
                       (ColumnSummary.non_null_pct s0)
                       (ColumnSummary.unique_values s0)
                       (ColumnSummary.example_values s0) []
            else s = s0)
         ss ss0.
Proof.
  apply (target_changes_one_column Demo.world (Demo.p ["data"; "a"; "x.csv"])
           (Some "plan") None Demo.df_a).
  reflexivity.
Defined.

(** * Further properties of the loader and the scan *)

(** Property X12. For a parquet or feather file the row cap is not used:
    [load_table] returns the same result whatever [sample_rows] is. *)
Theorem sample_rows_unused_for_columnar (w : World) (path : Path)
    (sample_rows other_rows : option Z) :
  In (PyStr.lower (pathlib.suffix path)) [".parquet"; ".feather"] ->
  load_table w path sample_rows = load_table w path other_rows.
Proof.
  unfold load_table. cbv zeta.
  intros [<- | [<- | []]]; reflexivity.
Qed.

Lemma sample_rows_unused_for_columnar_witness :
  load_table Demo.world (Demo.p ["data"; "broken.parquet"]) (Some 100%Z)
  = load_table Demo.world (Demo.p ["data"; "broken.parquet"]) None.
Proof.
  apply (sample_rows_unused_for_columnar Demo.world
           (Demo.p ["data"; "broken.parquet"]) (Some 100%Z) None).
  simpl. tauto.
Defined.

(** Property X13. The scan yields exactly the entries under the data
    directory that are files and whose lowercased suffix is supported:
    directories and files of any other suffix are left out, and nothing is
    yielded that the directory does not hold. *)
Theorem scan_data_dir_exact (w : World) (data_dir : Path) (path : Path) :
  In path (scan_data_dir w data_dir)
  <-> In path (glob_all w data_dir)
      /\ is_file w path = true
      /\ In (PyStr.lower (pathlib.suffix path)) SUPPORTED_EXTENSIONS.
Proof.
  unfold scan_data_dir. rewrite filter_In, sorted_In, andb_true_iff, mem_In.
  tauto.
Qed.

(** ** The order on paths *)

Lemma string_lt_facts (x y : string) :
  String_as_OT.lt x y ->
  String.eqb x y = false /\ String.eqb y x = false
  /\ String.ltb x y = true /\ String.ltb y x = false.
Proof.
  intros H.
  assert (Hne : x <> y) by (apply String_as_OT.lt_not_eq, H).
  apply String_as_OT.cmp_lt in H. unfold String_as_OT.cmp in H.
  repeat split.
  - now apply String.eqb_neq.
  - apply String.eqb_neq. congruence.
  - unfold String.ltb. now rewrite H.
  - unfold String.ltb. rewrite String.compare_antisym, H. reflexivity.
Qed.

Lemma string_trichotomy (x y : string) :
  x = y \/ String_as_OT.lt x y \/ String_as_OT.lt y x.
Proof.
  destruct (String_as_OT.compare x y) as [H | H | H]; auto.
Qed.

Lemma string_ltb_irrefl (x : string) : String.ltb x x = false.
Proof.
  unfold String.ltb.
  assert (E : String.compare x x = Eq) by now apply String_as_OT.cmp_eq.
  now rewrite E.
Qed.

Lemma parts_ltb_asym (a b : list string) :
  pathlib.parts_ltb a b = true -> pathlib.parts_ltb b a = false.
Proof.
  revert b; induction a as [|x a IH]; intros [|y b]; cbn; try easy.
  destruct (string_trichotomy x y) as [-> | [H | H]].
  - rewrite String.eqb_refl. apply IH.
  - destruct (string_lt_facts x y H) as (-> & -> & -> & ->). reflexivity.
  - destruct (string_lt_facts y x H) as (-> & -> & -> & ->). discriminate.
Qed.

Ltac string_lt_rewrite H :=
  let E1 := fresh in let E2 := fresh in let E3 := fresh in let E4 := fresh in
  destruct (string_lt_facts _ _ H) as (E1 & E2 & E3 & E4);
  rewrite ?E1, ?E2, ?E3, ?E4; clear E1 E2 E3 E4.

Lemma parts_le_trans (a b c : list string) :
  pathlib.parts_ltb b a = false -> pathlib.parts_ltb c b = false ->
  pathlib.parts_ltb c a = false.
Proof.
  revert b c; induction a as [|x a IH]; intros [|y b] [|z c]; cbn; try easy.
  destruct (string_trichotomy x y) as [-> | [Hxy | Hxy]];
    destruct (string_trichotomy y z) as [-> | [Hyz | Hyz]];
    rewrite ?String.eqb_refl, ?string_ltb_irrefl.
  - apply IH.
  - string_lt_rewrite Hyz. easy.
  - string_lt_rewrite Hyz. easy.
  - string_lt_rewrite Hxy. easy.
  - pose proof (String_as_OT.lt_trans _ _ _ Hxy Hyz) as Hxz.
    string_lt_rewrite Hxy. string_lt_rewrite Hyz. string_lt_rewrite Hxz. easy.
  - string_lt_rewrite Hyz. easy.
  - string_lt_rewrite Hxy. easy.
  - string_lt_rewrite Hxy. easy.
  - string_lt_rewrite Hxy. easy.
Qed.

Lemma StronglySorted_filter {A : Type} (R : A -> A -> Prop) (f : A -> bool)
    (l : list A) :
  StronglySorted R l -> StronglySorted R (filter f l).
Proof.
  induction 1 as [|x l Hs IH Hx]; cbn; [constructor |].
  destruct (f x); [| exact IH].
  constructor; [exact IH |].
  apply Forall_forall. intros y Hy. apply filter_In in Hy.
  rewrite Forall_forall in Hx. now apply Hx.
Qed.

(** Property X14. The scan yields its paths in ascending order of their
    components, compared string by string: no path is followed, anywhere
    later in the list, by a smaller one. *)
Theorem scan_data_dir_sorted (w : World) (data_dir : Path) :
  StronglySorted (fun p q => pathlib.ltb q p = false) (scan_data_dir w data_dir).
Proof.
  unfold scan_data_dir. apply StronglySorted_filter.
  apply sorted_sorted with (P := fun _ => True).
  - intros x y _ _. apply parts_ltb_asym.
  - intros x y _ _ H. exact H.
  - intros x y z _ _ _ H1 H2. unfold pathlib.ltb in *.
    eapply parts_le_trans; eassumption.
  - apply Forall_forall. auto.
Qed.



(** * Further properties of [main] *)


(** Property X17. The loading loop keeps the scan order and loses no path:
    the summaries are those of the paths that load, in the order of the
    scan, and each path gives either a summary or a warning line. *)
Theorem load_all_keeps_order (w : World) (args : Args) (table_paths : list Path) :
  map TableSummary.file_path (fst (load_all w args table_paths))
  = filter (fun path => negb (fails w args path)) table_paths
  /\ List.length (fst (load_all w args table_paths))
     + List.length (snd (load_all w args table_paths))
     = List.length table_paths
  /\ List.length (snd (load_all w args table_paths))
     = List.length (filter (fails w args) table_paths).
Proof.
  unfold load_all. rewrite load_loop_spec. cbn [fst snd app].
  induction table_paths as [|path paths (IH1 & IH2 & IH3)]; [easy |].
  cbn [flat_map filter].
  destruct (summarize_table w path (target args) (sample_rows args)) as [ts | e] eqn:E.
  - assert (E1 : summary_of w args path = [ts]) by (unfold summary_of; now rewrite E).
    assert (E2 : warning_of w args path = []) by (unfold warning_of; now rewrite E).
    assert (E3 : fails w args path = false) by (unfold fails; now rewrite E).
    apply summarize_table_file_path in E.
    rewrite E1, E2, E3. cbn [negb app map List.length].
    rewrite E, IH1, IH3. repeat split; auto. lia.
  - assert (E1 : summary_of w args path = []) by (unfold summary_of; now rewrite E).
    assert (E2 : warning_of w args path = [warning path e])
      by (unfold warning_of; now rewrite E).
    assert (E3 : fails w args path = true) by (unfold fails; now rewrite E).
    rewrite E1, E2, E3. cbn [negb app map List.length].
    rewrite IH1, IH3. repeat split; auto. lia.
Qed.

Lemma collect_fst (w : World) (tss : list TableSummary.t)
    (parts : list string) (d : PyDict.t CandidateInfo) :
  fst (fold_left (collect_step w) tss (parts, d))
  = parts ++ map (to_markdown w) tss.
Proof.
  revert parts d; induction tss as [|ts tss IH]; intros parts d; cbn [fold_left map].
  - now rewrite app_nil_r.
  - unfold collect_step at 2. rewrite IH, <- app_assoc. reflexivity.
Qed.

(** Property X18. The report opens with its title, followed by one
    section per summarized table in order; and the dict of candidates is
    empty, so that the report ends there, exactly when no column of any
    table qualifies. *)
Theorem report_sections (w : World) (table_summaries : list TableSummary.t) :
  fst (collect w table_summaries)
  = ("## Resumo de Schemas" ++ nl)%string :: map (to_markdown w) table_summaries
  /\ (snd (collect w table_summaries) = []
      <-> forall table_summary col,
            In table_summary table_summaries ->
            In col (TableSummary.column_summaries table_summary) ->
            is_candidate col = false).
Proof.
  split; [unfold collect; now rewrite collect_fst |].
  rewrite collect_modeling_candidates. unfold modeling_candidates. split.
  - intros E ts col Hts Hcol.
    destruct (is_candidate col) eqn:Hc; [exfalso | reflexivity].
    assert (Hk : In (candidate_key ts col)
                   (PyDict.keys (collect_pairs (candidate_pairs table_summaries) []))).
    { apply collect_pairs_keys. right. exists (ts, col).
      repeat split; auto. now apply candidate_pairs_In. }
    rewrite E in Hk. exact Hk.
  - intros H.
    destruct (collect_pairs (candidate_pairs table_summaries) []) as [|[k v] d] eqn:E;
      [reflexivity | exfalso].
    assert (Hin : In (k, v) (collect_pairs (candidate_pairs table_summaries) []))
      by (rewrite E; now left).
    apply collect_pairs_In in Hin.
    destruct Hin as [[] | ([ts col] & Hpr & Hc & _)].
    apply candidate_pairs_In in Hpr. destruct Hpr as [Hts Hcol].
    cbn in Hc. rewrite (H ts col Hts Hcol) in Hc. discriminate Hc.
Qed.

Lemma Forall2_In_right {A B : Type} (P : A -> B -> Prop)
    (l : list A) (l' : list B) (y : B) :
  Forall2 P l l' -> In y l' -> exists x, In x l /\ P x y.
Proof.
  induction 1 as [|a b l l' Hab HF IH]; cbn; [intros [] |].
  intros [<- | Hy]; [exists a; auto |].
  destruct (IH Hy) as (x & Hx & HP). exists x. auto.
Qed.

(** Property X19. In the summary of a table, the column of the designated
    target, the columns whose name looks like an identifier and the
    datetime columns never qualify as modeling candidates, whatever their
    coverage: a column that qualifies is a numeric, boolean, string or
    categorical column that the first three rules let pass. *)
Theorem candidates_pass_first_rules (w : World) (path : Path)
    (target : option string) (sample_rows : option Z) (ts : TableSummary.t)
    (col : ColumnSummary.t) :
  summarize_table w path target sample_rows = Ok ts ->
  In col (TableSummary.column_summaries ts) ->
  is_candidate col = true ->
  is_target (ColumnSummary.name col) target = false
  /\ id_name (PyStr.lower (ColumnSummary.name col)) = false
  /\ exists df series,
       load_table w path sample_rows = Ok df
       /\ In (ColumnSummary.name col, series) (columns df)
       /\ pd.is_datetime64_any_dtype series = false
       /\ (pd.is_numeric_dtype series = true
           \/ pd.is_bool_dtype series = true
           \/ pd.is_string_dtype series || pd.is_categorical_dtype series = true).
Proof.
  intros Hs Hcol Hc.
  destruct (load_table w path sample_rows) as [df | e] eqn:El.
  2: { unfold summarize_table in Hs. rewrite El in Hs. discriminate Hs. }
  destruct (summarize_table_each w path target sample_rows df El) as (ss & E & HF).
  rewrite E in Hs. injection Hs as <-. cbn in Hcol.
  destruct (Forall2_In_right _ _ _ _ HF Hcol) as ([n series] & Hin & Hsum).
  apply summarize_column_fields in Hsum.
  destruct Hsum as (Hn & _ & Hrole & _). rewrite Hn.
  apply is_candidate_spec in Hc. destruct Hc as [Hr _].
  unfold infer_role in Hrole. fold (is_target n target) in Hrole.
  rewrite unique_ratio_refines in Hrole; cbn [bind] in Hrole.
  destruct (is_target n target);
    [injection Hrole as Hrole _; rewrite <- Hrole in Hr; simpl in Hr;
     intuition discriminate |].
  destruct (id_name (PyStr.lower n));
    [injection Hrole as Hrole _; rewrite <- Hrole in Hr; simpl in Hr;
     intuition discriminate |].
  split; [reflexivity | split; [reflexivity |]].
  exists df, series. split; [reflexivity | split; [exact Hin |]].
  destruct (pd.is_datetime64_any_dtype series);
    [injection Hrole as Hrole _; rewrite <- Hrole in Hr; simpl in Hr;
     intuition discriminate |].
  split; [reflexivity |].
  destruct (pd.is_numeric_dtype series); [now left |].
  destruct (pd.is_bool_dtype series); [right; now left |].
  destruct (pd.is_string_dtype series || pd.is_categorical_dtype series);
    [right; now right |].
  injection Hrole as Hrole _; rewrite <- Hrole in Hr; simpl in Hr.
  intuition discriminate.
Qed.

Lemma candidates_pass_first_rules_witness :
  is_target (ColumnSummary.name DemoRun.plan_a) (Some "churned") = false
  /\ id_name (PyStr.lower (ColumnSummary.name DemoRun.plan_a)) = false
  /\ exists df series,
       load_table Demo.world (Demo.p ["data"; "a"; "x.csv"]) None = Ok df
       /\ In (ColumnSummary.name DemoRun.plan_a, series) (columns df)
       /\ pd.is_datetime64_any_dtype series = false
       /\ (pd.is_numeric_dtype series = true
           \/ pd.is_bool_dtype series = true
           \/ pd.is_string_dtype series || pd.is_categorical_dtype series = true).
Proof.
  apply (candidates_pass_first_rules Demo.world (Demo.p ["data"; "a"; "x.csv"])
           (Some "churned") None DemoRun.ts_a DemoRun.plan_a).
  - reflexivity.
  - simpl. tauto.
  - reflexivity.
Defined.

(** * Further properties of the modeling candidates *)

Lemma dict_set_same {V : Type} (k : string) (v : V) (d : PyDict.t V) :
  In (k, v) (PyDict.set k v d).
Proof.
  induction d as [|[k0 v0] d IH]; cbn [PyDict.set]; [now left |].
  destruct (String.eqb_spec k0 k) as [-> | Hne]; [now left | now right].
Qed.

Lemma dict_set_other {V : Type} (k : string) (v : V) (d : PyDict.t V)
    (k' : string) (v' : V) :
  k' <> k -> In (k', v') d -> In (k', v') (PyDict.set k v d).
Proof.
  intros Hne. induction d as [|[k0 v0] d IH]; cbn [PyDict.set]; [intros [] |].
  destruct (String.eqb_spec k0 k) as [-> | Hk]; intros [E | H].
  - injection E as -> _. congruence.
  - now right.
  - now left.
  - right. now apply IH.
Qed.

Lemma dict_keys_functional {V : Type} (d : list (string * V)) (k : string)
    (v v' : V) :
  NoDup (map fst d) -> In (k, v) d -> In (k, v') d -> v = v'.
Proof.
  induction d as [|[k0 v0] d IH]; cbn [map fst]; [intros _ [] |].
  intros H. inversion H as [|? ? Hnot Hd]; subst.
  intros [E | Hv] [E' | Hv'].
  - congruence.
  - injection E as -> _. exfalso. apply Hnot.
    change k with (fst (k, v')). now apply in_map.
  - injection E' as -> _. exfalso. apply Hnot.
    change k with (fst (k, v)). now apply in_map.
  - now apply IH.
Qed.

Lemma collect_pairs_keeps pairs (d : PyDict.t CandidateInfo) k v :
  In (k, v) d ->
  (forall pr, In pr pairs -> is_candidate (snd pr) = true -> pair_key pr <> k) ->
  In (k, v) (collect_pairs pairs d).
Proof.
  unfold collect_pairs.
  revert d; induction pairs as [|pr pairs IH]; intros d Hin Hother;
    cbn [fold_left]; [exact Hin |].
  apply IH; [| intros pr' Hpr'; apply Hother; now right].
  unfold collect_column. destruct (is_candidate (snd pr)) eqn:Hc; [| exact Hin].
  apply dict_set_other; [| exact Hin].
  intros E. apply (Hother pr); auto. now left.
Qed.

(** Property X20. When several qualifying columns share a key, the last
    one in scan order is the one listed: the list holds the key once, with
    the role, coverage and distinct count of the last qualifying column
    under that key, whatever came before it. *)
Theorem last_candidate_wins (table_summaries : list TableSummary.t)
    (before after : list (TableSummary.t * ColumnSummary.t))
    (table_summary : TableSummary.t) (col : ColumnSummary.t) :
  candidate_pairs table_summaries = before ++ (table_summary, col) :: after ->
  is_candidate col = true ->
  (forall pr, In pr after -> is_candidate (snd pr) = true ->
              pair_key pr <> candidate_key table_summary col) ->
  In (candidate_key table_summary col, candidate_info col)
    (candidate_list table_summaries)
  /\ forall info,
       In (candidate_key table_summary col, info) (candidate_list table_summaries) ->
       info = candidate_info col.
Proof.
  intros Hpairs Hc Hafter.
  assert (Hin : In (candidate_key table_summary col, candidate_info col)
                  (candidate_list table_summaries)).
  { unfold candidate_list, ranked, modeling_candidates. apply sorted_In.
    rewrite Hpairs. unfold collect_pairs. rewrite fold_left_app.
    cbn [fold_left fst snd]. apply collect_pairs_keeps; [| exact Hafter].
    unfold collect_column. rewrite Hc. apply dict_set_same. }
  split; [exact Hin |].
  intros info Hinfo.
  apply (dict_keys_functional (candidate_list table_summaries)
           (candidate_key table_summary col)); auto.
  apply candidate_list_keys_NoDup.
Qed.

Lemma last_candidate_wins_witness :
  In ("x.csv::plan", mkInfo (Fin (300 # 4)) 3 ROLE_CATEGORICAL)
    (candidate_list [DemoRun.ts_a; DemoRun.ts_b])
  /\ forall info,
       In ("x.csv::plan", info) (candidate_list [DemoRun.ts_a; DemoRun.ts_b]) ->
       info = mkInfo (Fin (300 # 4)) 3 ROLE_CATEGORICAL.
Proof.
  apply (last_candidate_wins [DemoRun.ts_a; DemoRun.ts_b]
           (firstn 5 (candidate_pairs [DemoRun.ts_a; DemoRun.ts_b])) []
           DemoRun.ts_b
           (DemoRun.col "plan" ROLE_CATEGORICAL (300 # 4) 3 ["cell"; "cell"] [])).
  - reflexivity.
  - reflexivity.
  - intros pr [].
Defined.
